(** * mcp-graphql-server: the request pipeline of [src/config.ts],
      [src/utils.ts] and [src/index.ts], embedded and verified.

    The GraphQL library ([parse], [visit]), the JSON built-ins, the HTTP
    client and the clock are collaborators of the program.  [parse],
    [JSON.parse], [JSON.stringify] and string-to-number conversion are kept
    abstract, as the fields of the class [Externals]; [visit] is modelled
    as the depth-first walk it is; the HTTP client and the clock are an
    explicit [World] the handlers run against, and every request handed to
    the HTTP client is recorded in a log. *)

From Stdlib Require Import ZArith NArith List String Ascii DecimalString.
From stdpp Require Import base option list gmap.

Set Warnings "-register-all".
Local Open Scope N_scope.

(** ** JavaScript strings

    A JavaScript string is a sequence of UTF-16 code units.  Regular
    expressions without the [u] flag and [String.prototype.trim] both work
    on code units, so this is the level at which [formatGraphQLQuery] is
    modelled. *)

Module JsString.

Abbreviation code_unit := N (only parsing).
Abbreviation jsstring := (list N) (only parsing).

(** A string literal of the source, as code units (the literals of this
    program are ASCII). *)
Definition lit (s : string) : jsstring :=
  map N_of_ascii (list_ascii_of_string s).
Arguments lit s%_string.

(** The class [\s] of a regular expression, which is also the set that
    [trim] strips: WhiteSpace and LineTerminator of ECMA-262, that is
    TAB, LF, VT, FF, CR, SP, NBSP, U+1680, U+2000..U+200A, LS, PS,
    U+202F, U+205F, U+3000 and U+FEFF. *)
Definition is_space (c : code_unit) : bool :=
  ((9 <=? c) && (c <=? 13))
  || (c =? 32) || (c =? 160) || (c =? 5760)
  || ((8192 <=? c) && (c <=? 8202))
  || (c =? 8232) || (c =? 8233) || (c =? 8239) || (c =? 8287)
  || (c =? 12288) || (c =? 65279).

Definition SP : code_unit := 32.

(** [s.replace(/\s+/g, " ")]: every maximal run of [\s] becomes one space.
    [in_run] says that the previous code unit belonged to the run being
    replaced. *)
Fixpoint replace_ws_runs (in_run : bool) (s : jsstring) : jsstring :=
  match s with
  | [] => []
  | c :: s' =>
      if is_space c
      then (if in_run then replace_ws_runs true s'
            else SP :: replace_ws_runs true s')
      else c :: replace_ws_runs false s'
  end.

(** [trimStart] and [trimEnd]; [trim] is their composition. *)
Fixpoint trimStart (s : jsstring) : jsstring :=
  match s with
  | [] => []
  | c :: s' => if is_space c then trimStart s' else s
  end.

Fixpoint trimEnd (s : jsstring) : jsstring :=
  match s with
  | [] => []
  | c :: s' =>
      match trimEnd s' with
      | [] => if is_space c then [] else [c]
      | t => c :: t
      end
  end.

Definition trim (s : jsstring) : jsstring := trimEnd (trimStart s).

(** [Array.prototype.join] on strings. *)
Fixpoint join (sep : jsstring) (l : list jsstring) : jsstring :=
  match l with
  | [] => []
  | [x] => x
  | x :: l' => x ++ sep ++ join sep l'
  end.

(** Decimal rendering of an integer, as [String(n)] gives for an
    integer-valued number. *)
Definition Z_to_jsstring (z : Z) : jsstring :=
  lit (NilZero.string_of_int (Z.to_int z)).

End JsString.
Import JsString.

(** ** JavaScript numbers and values

    Numbers of this program are counts, milliseconds and status codes:
    integer-valued doubles, modelled by [Z], and [NaN], which
    [Number(undefined)] produces.  Non-integral and infinite numbers are
    outside the model. *)

Inductive jsnum := JNaN | JInt (z : Z).

(** The double nearest to an integer, ties to the even significand: an
    integer up to 2^53 in absolute value is a double; beyond, only 53
    leading bits are kept.  (Overflow to [Infinity], above 2^1024, is
    outside the model.) *)
Definition round_to_double (z : Z) : Z :=
  if (Z.abs z <=? 2 ^ 53)%Z then z
  else
    let shift := (Z.log2 (Z.abs z) - 52)%Z in
    let q := (Z.abs z / 2 ^ shift)%Z in
    let r := (Z.abs z mod 2 ^ shift)%Z in
    let half := (2 ^ (shift - 1))%Z in
    let q' := if (half <? r)%Z || ((r =? half)%Z && Z.odd q)
              then (q + 1)%Z else q in
    (Z.sgn z * (q' * 2 ^ shift))%Z.

(** [a + b]: the sum, rounded as the addition of doubles rounds it. *)
Definition js_add (a b : jsnum) : jsnum :=
  match a, b with
  | JInt x, JInt y => JInt (round_to_double (x + y))
  | _, _ => JNaN
  end.

(** [a > b]: false as soon as one side is [NaN]. *)
Definition js_gt (a b : jsnum) : bool :=
  match a, b with
  | JInt x, JInt y => (y <? x)%Z
  | _, _ => false
  end.

(** [`${n}`] for a number. *)
Definition Number_toString (n : jsnum) : jsstring :=
  match n with
  | JNaN => lit "NaN"
  | JInt z => Z_to_jsstring z
  end.

(** [x ?? d]: [d] only when [x] is [undefined] or [null] ([None]). *)
Definition nullish {A} (x : option A) (d : A) : A :=
  match x with
  | Some v => v
  | None => d
  end.

(** JSON-shaped values: query variables, response data, header values. *)
Inductive json :=
| JNull
| JBool (b : bool)
| JNumber (n : jsnum)
| JString (s : jsstring)
| JArray (l : list json)
| JObject (members : list (jsstring * json)).

(** Header objects ([Record<string, string>] in the source, whatever JSON
    the caller supplied at run time), used as maps from name to value. *)
Abbreviation Headers := (gmap (list N) json).

(** [{...target, ...source}]: the properties of [source] are set over a
    copy of [target]. *)
Definition spread (target source : Headers) : Headers := source ∪ target.

(** The own enumerable string-keyed properties that [Object.assign] copies
    from a parsed JSON value: the members of an object, the indices of an
    array or of a string, nothing for the other primitives. *)
Definition own_properties (v : json) : list (jsstring * json) :=
  match v with
  | JObject members => members
  | JArray l => imap (fun i x => (Z_to_jsstring (Z.of_nat i), x)) l
  | JString s => imap (fun i c => (Z_to_jsstring (Z.of_nat i), JString [c])) s
  | _ => []
  end.

(** [Object.assign(target, source)] stores each property with
    [target[k] = v].  On an ordinary object the name [__proto__] reaches
    the setter inherited from [Object.prototype] instead: no property is
    stored under it. *)
Definition Object_assign (target : Headers) (source : json) : Headers :=
  foldl (fun m kv =>
           if bool_decide (kv.1 = lit "__proto__") then m
           else <[kv.1 := kv.2]> m)
    target (own_properties source).

(** ** The GraphQL response and the HTTP client's view of it *)

(** An entry of the [errors] array; the source reads it as
    [{ message: string }]. *)
Record GraphQLErrorEntry := { entry_message : jsstring }.

(** [response.data]: the GraphQL response [{data?, errors?}]. *)
Record GraphQLResponse := {
  resp_data : option json;
  resp_errors : option (list GraphQLErrorEntry)
}.

Record AxiosResponse := {
  status : Z;
  data : GraphQLResponse
}.

(** Instances of [Error].  An [AxiosError] carries the response when the
    server answered with a status outside 2xx, and the request object when
    a request was sent; [request] records whether that object is present. *)
Inductive ErrorObject :=
| AxiosError (message : jsstring) (response : option AxiosResponse)
    (request : bool)
| OtherError (name message : jsstring).

(** A value of type [unknown], as a [catch] clause binds it.  [VError] is
    an [Error] whose properties read as declared ([message: string]);
    [VErrorUnreadable thrown] is an instance of [Error], of whatever class,
    whose [message] getter throws [thrown].  An object that is not an
    [Error] is abstracted to what converting it to a string gives: the
    string, or the value that the conversion throws (its [toString]
    throws it, or the engine throws a [TypeError] for an object without
    prototype). *)
Inductive jsvalue :=
| VError (e : ErrorObject)
| VErrorUnreadable (thrown : jsvalue)
| VUndefined
| VNull
| VBool (b : bool)
| VNumber (n : jsnum)
| VString (s : jsstring)
| VObject (conversion : list N + jsvalue).

(** ** Exceptions *)

Inductive Outcome (A : Type) :=
| Returned (a : A)
| Threw (e : jsvalue).
Arguments Returned {A} a.
Arguments Threw {A} e.

Definition TypeError (msg : jsstring) : jsvalue :=
  VError (OtherError (lit "TypeError") msg).

Definition error_name (e : ErrorObject) : jsstring :=
  match e with
  | AxiosError _ _ _ => lit "AxiosError"
  | OtherError name _ => name
  end.

Definition error_message (e : ErrorObject) : jsstring :=
  match e with
  | AxiosError message _ _ => message
  | OtherError _ message => message
  end.

(** [Error.prototype.toString]. *)
Definition Error_toString (e : ErrorObject) : jsstring :=
  match error_name e, error_message e with
  | [], msg => msg
  | name, [] => name
  | name, msg => name ++ lit ": " ++ msg
  end.

(** [String(v)]. *)
Definition String_of (v : jsvalue) : Outcome jsstring :=
  match v with
  | VError e => Returned (Error_toString e)
  | VUndefined => Returned (lit "undefined")
  | VNull => Returned (lit "null")
  | VBool true => Returned (lit "true")
  | VBool false => Returned (lit "false")
  | VNumber n => Returned (Number_toString n)
  | VString s => Returned s
  | VErrorUnreadable thrown => Threw thrown
  | VObject (inl s) => Returned s
  | VObject (inr thrown) => Threw thrown
  end.

(** ** The GraphQL document, as [parse] returns it

    The executable part of the AST of graphql-js.  Names, arguments,
    directives, variable definitions and type conditions are kept, since a
    field stays one field whatever they are; type-system definitions carry
    no selection and are kept by kind. *)

Inductive OperationTypeNode := QUERY | MUTATION | SUBSCRIPTION.

Inductive ValueNode :=
| VariableRef (name : jsstring)
| ScalarValue (text : jsstring)
| ListValue (values : list ValueNode)
| ObjectValue (fields : list (jsstring * ValueNode)).

Record ArgumentNode := { arg_name : jsstring; arg_value : ValueNode }.
Record DirectiveNode := {
  directive_name : jsstring;
  directive_arguments : list ArgumentNode
}.

Inductive SelectionNode :=
| Field (alias : option jsstring) (name : jsstring)
    (arguments : list ArgumentNode) (directives : list DirectiveNode)
    (selectionSet : option (list SelectionNode))
| FragmentSpread (name : jsstring) (directives : list DirectiveNode)
| InlineFragment (typeCondition : option jsstring)
    (directives : list DirectiveNode) (selectionSet : list SelectionNode).

Inductive DefinitionNode :=
| OperationDefinition (operation : OperationTypeNode)
    (name : option jsstring) (variableDefinitions : list jsstring)
    (directives : list DirectiveNode) (selectionSet : list SelectionNode)
| FragmentDefinition (name typeCondition : jsstring)
    (directives : list DirectiveNode) (selectionSet : list SelectionNode)
| TypeSystemDefinition (kind : jsstring).

Record DocumentNode := { definitions : list DefinitionNode }.

(** [Kind], for the nodes that lie on a path to a selection. *)
Inductive Kind :=
| DOCUMENT | OPERATION_DEFINITION | FRAGMENT_DEFINITION | TYPE_SYSTEM
| SELECTION_SET | FIELD | FRAGMENT_SPREAD | INLINE_FRAGMENT.

Definition selection_kind (s : SelectionNode) : Kind :=
  match s with
  | Field _ _ _ _ _ => FIELD
  | FragmentSpread _ _ => FRAGMENT_SPREAD
  | InlineFragment _ _ _ => INLINE_FRAGMENT
  end.

Definition definition_kind (d : DefinitionNode) : Kind :=
  match d with
  | OperationDefinition _ _ _ _ _ => OPERATION_DEFINITION
  | FragmentDefinition _ _ _ _ => FRAGMENT_DEFINITION
  | TypeSystemDefinition _ => TYPE_SYSTEM
  end.

(** *** [visit]

    graphql-js walks the document depth first and, on entering a node,
    calls the visitor's function for the node's kind, if it has one.  A
    visitor of the source closes over a variable it updates; here it is a
    state transformer per kind.  The functions of this program return
    nothing, so the walk never skips or stops. *)

Definition Visitor (S : Type) := Kind -> option (S -> S).

Definition enter {S} (v : Visitor S) (k : Kind) (st : S) : S :=
  match v k with
  | Some f => f st
  | None => st
  end.

Section Visit.
Context {S : Type} (v : Visitor S).

Fixpoint visit_selection (sel : SelectionNode) (st : S) : S :=
  let visit_selections :=
    fix go (l : list SelectionNode) (st : S) : S :=
      match l with
      | [] => st
      | x :: l' => go l' (visit_selection x st)
      end in
  let st := enter v (selection_kind sel) st in
  match sel with
  | Field _ _ _ _ None => st
  | Field _ _ _ _ (Some sels) =>
      visit_selections sels (enter v SELECTION_SET st)
  | FragmentSpread _ _ => st
  | InlineFragment _ _ sels =>
      visit_selections sels (enter v SELECTION_SET st)
  end.

Definition visit_selectionSet (sels : list SelectionNode) (st : S) : S :=
  foldl (fun st x => visit_selection x st) (enter v SELECTION_SET st) sels.

Definition visit_definition (d : DefinitionNode) (st : S) : S :=
  let st := enter v (definition_kind d) st in
  match d with
  | OperationDefinition _ _ _ _ sels => visit_selectionSet sels st
  | FragmentDefinition _ _ _ sels => visit_selectionSet sels st
  | TypeSystemDefinition _ => st
  end.

Definition visit (doc : DocumentNode) (st : S) : S :=
  foldl (fun st d => visit_definition d st) (enter v DOCUMENT st)
    (definitions doc).
End Visit.

(** ** The collaborators *)

(** What a parser returns: the parsed value, or the message of the error
    it throws. *)
Inductive Parsed (A : Type) :=
| Ok (a : A)
| SyntaxError (message : jsstring).
Arguments Ok {A} a.
Arguments SyntaxError {A} message.

(** [parse] of graphql-js throws a [GraphQLError]; [JSON.parse] a
    [SyntaxError].  [JSON_stringify v] is [JSON.stringify(v, null, 2)];
    [JSON_stringify_headers] is the same call on a header object, whose key
    order a map does not keep.  [StringToNumber] is [Number(s)] on a
    string. *)
Class Externals := {
  parse : jsstring -> Parsed DocumentNode;
  JSON_parse : jsstring -> Parsed json;
  JSON_stringify : json -> jsstring;
  JSON_stringify_headers : Headers -> jsstring;
  StringToNumber : jsstring -> jsnum;
  packageVersion : jsstring
}.

Definition throwing {A} (name : jsstring) (r : Parsed A) : Outcome A :=
  match r with
  | Ok a => Returned a
  | SyntaxError message => Threw (VError (OtherError name message))
  end.

(** ** src/config.ts *)

(** The flags given on the command line, already typed by yargs, and
    [process.env]. *)
Record CommandLine := {
  flag_endpoint : option jsstring;
  flag_headers : option jsstring;
  flag_timeout : option jsnum;
  flag_maxComplexity : option jsnum
}.

Record Argv := {
  argv_endpoint : jsstring;
  argv_headers : option jsstring;
  argv_timeout : jsnum;
  argv_maxComplexity : jsnum
}.

Record Config := {
  endpoint : jsstring;
  maxQueryComplexity : jsnum;
  timeout : jsnum;
  headers : Headers;
  version : jsstring
}.

Section ConfigModule.
Context {ext : Externals}.

(** [Number(x)] for an environment variable: [undefined] gives [NaN]. *)
Definition Number_of_env (x : option jsstring) : jsnum :=
  match x with
  | None => JNaN
  | Some s => StringToNumber s
  end.

(** An option of yargs: the flag when given, else the declared default. *)
Definition yargs_option {A} (flag : option A) (default : A) : A :=
  match flag with
  | Some v => v
  | None => default
  end.

Definition parseArguments (cl : CommandLine) (env : gmap (list N) (list N))
  : Argv :=
  {| argv_endpoint :=
       yargs_option (flag_endpoint cl)
         (nullish (env !! lit "ENDPOINT")
            (lit "http://localhost:4000/graphql"));
     argv_headers := flag_headers cl;
     argv_timeout :=
       yargs_option (flag_timeout cl)
         (nullish (Some (Number_of_env (env !! lit "TIMEOUT")))
            (JInt 30000));
     argv_maxComplexity :=
       yargs_option (flag_maxComplexity cl)
         (nullish (Some (Number_of_env (env !! lit "MAX_DEPTH")))
            (JInt 100)) |}.

(** The constructor of [Config]; a header flag that does not parse is
    reported on the console and leaves the headers empty. *)
Definition new_Config (cl : CommandLine) (env : gmap (list N) (list N))
  : Config :=
  let argv := parseArguments cl env in
  {| endpoint := argv_endpoint argv;
     maxQueryComplexity := argv_maxComplexity argv;
     timeout := argv_timeout argv;
     version := packageVersion;
     headers :=
       match argv_headers argv with
       | None | Some [] => ∅
       | Some s =>
           match JSON_parse s with
           | Ok v => Object_assign ∅ v
           | SyntaxError _ => ∅
           end
       end |}.
End ConfigModule.

(** [export const config = new Config()]: the value the other modules
    import. *)
Class ConfigModule := { config : Config }.

(** ** The HTTP client, the clock and asynchronous code *)

Record HttpRequest := {
  url : jsstring;
  body_query : jsstring;
  body_variables : option json;
  request_headers : Headers;
  request_timeout : jsnum
}.

(** How the promise of [axios.post] settles: resolved with the response
    (status in 2xx), or rejected with an error, an [AxiosError] as a rule. *)
Inductive Settled :=
| Resolved (response : AxiosResponse)
| Rejected (error : ErrorObject).

(** The outside world: what [axios.post] settles to for a request, and the
    successive readings of [Date.now()]. *)
Record World := {
  axios_post : HttpRequest -> Settled;
  Date_now : nat -> Z
}.

(** What a run has done so far: the requests issued, in order, and the
    number of clock readings. *)
Record Trace := {
  requests : list HttpRequest;
  clock_reads : nat
}.

Definition start : Trace := {| requests := []; clock_reads := 0 |}.

Definition Async (A : Type) : Type := World -> Trace -> Outcome A * Trace.

Definition ret {A} (a : A) : Async A := fun _ t => (Returned a, t).
Definition lift {A} (o : Outcome A) : Async A := fun _ t => (o, t).

Definition bind {A B} (m : Async A) (k : A -> Async B) : Async B :=
  fun w t =>
    match m w t with
    | (Returned a, t') => k a w t'
    | (Threw e, t') => (Threw e, t')
    end.

Definition try_catch {A} (m : Async A) (handler : jsvalue -> Async A)
  : Async A :=
  fun w t =>
    match m w t with
    | (Returned a, t') => (Returned a, t')
    | (Threw e, t') => handler e w t'
    end.

Notation "'let*' x := m 'in' k" := (bind m (fun x => k))
  (at level 10, x name, m at level 100, k at level 200).

Definition post (req : HttpRequest) : Async AxiosResponse :=
  fun w t =>
    (match axios_post w req with
     | Resolved response => Returned response
     | Rejected error => Threw (VError error)
     end,
     {| requests := requests t ++ [req]; clock_reads := clock_reads t |}).

Definition now : Async Z :=
  fun w t =>
    (Returned (Date_now w (clock_reads t)),
     {| requests := requests t; clock_reads := Datatypes.S (clock_reads t) |}).

(** ** src/utils.ts *)

Record ToolText := { type : jsstring; text : jsstring }.

Record ToolResult := {
  content : list ToolText;
  isError : option bool
}.

Record ExecuteArgs := {
  exec_endpoint : option jsstring;
  exec_query : jsstring;
  exec_variables : option json;
  exec_headers : option Headers;
  exec_timeout : option jsnum
}.

(** The two headers the object literal of [axios.post] starts from. *)
Definition protocol_headers : Headers :=
  <[lit "Accept" := JString (lit "application/json")]>
    (<[lit "Content-Type" := JString (lit "application/json")]> ∅).

(** [query.replace(/\s+/g, " ").trim()]. *)
Definition formatGraphQLQuery (query : jsstring) : jsstring :=
  trim (replace_ws_runs false query).

Section Utils.
Context {ext : Externals} {cfg : ConfigModule}.

Definition DEFAULT_GRAPHQL_ENDPOINT : jsstring := endpoint config.
Definition DEFAULT_TIMEOUT : jsnum := timeout config.
Definition DEFAULT_HEADERS : Headers := headers config.
Definition MAX_QUERY_COMPLEXITY : jsnum := maxQueryComplexity config.

Definition sanitizeErrorMessage (error : jsvalue) : Outcome jsstring :=
  match error with
  | VError (AxiosError message (Some response) _) =>
      Returned (lit "Server responded with status "
                ++ Z_to_jsstring (status response) ++ lit ": " ++ message)
  | VError (AxiosError message None true) =>
      Returned (lit "No response received: " ++ message)
  | VError e => Returned (error_message e)
  | VErrorUnreadable thrown => Threw thrown
  | _ => String_of error
  end.

Definition is_mutation_definition (d : DefinitionNode) : bool :=
  match d with
  | OperationDefinition MUTATION _ _ _ _ => true
  | _ => false
  end.

(** The [for] loop of [isMutation]: [true] at the first mutation. *)
Fixpoint any_mutation (defs : list DefinitionNode) : bool :=
  match defs with
  | [] => false
  | d :: defs' => if is_mutation_definition d then true else any_mutation defs'
  end.

Definition isMutation (query : jsstring) : bool :=
  match parse query with
  | Ok document => any_mutation (definitions document)
  | SyntaxError _ => false
  end.

(** The visitor [{ Field(_) { complexity += 1 } }]. *)
Definition field_counter : Visitor Z :=
  fun k => match k with
           | FIELD => Some (fun complexity => (complexity + 1)%Z)
           | _ => None
           end.

Definition calculateQueryComplexity (query : jsstring) : jsnum :=
  match parse query with
  | Ok document => JInt (visit field_counter document 0%Z)
  | SyntaxError _ => js_add MAX_QUERY_COMPLEXITY (JInt 1)
  end.

(** The header object handed to [axios.post]. *)
Definition request_headers_of (headers : Headers) : Headers :=
  spread (spread protocol_headers DEFAULT_HEADERS) headers.

Definition executeGraphQLQuery (a : ExecuteArgs) : Async AxiosResponse :=
  let endpoint := nullish (exec_endpoint a) DEFAULT_GRAPHQL_ENDPOINT in
  let headers := nullish (exec_headers a) ∅ in
  let timeout := nullish (exec_timeout a) DEFAULT_TIMEOUT in
  let* processedVariables :=
    match exec_variables a with
    | Some (JString s) =>
        let* v := lift (throwing (lit "SyntaxError") (JSON_parse s)) in
        ret (Some v)
    | variables => ret variables
    end in
  let* response :=
    post {| url := endpoint;
            body_query := exec_query a;
            body_variables := processedVariables;
            request_headers := request_headers_of headers;
            request_timeout := timeout |} in
  ret response.

(** ** src/index.ts: the query handler *)

Definition text_block (s : jsstring) : ToolText :=
  {| type := lit "text"; text := s |}.

Definition error_result (message : jsstring) : ToolResult :=
  {| content := [text_block message]; isError := Some true |}.

Definition mutation_message : jsstring :=
  lit "Mutation operations are not allowed unless explicitly enabled with allowMutations=true".

Definition complexity_message (queryComplexity : jsnum) : jsstring :=
  lit "Query complexity (" ++ Number_toString queryComplexity
  ++ lit ") exceeds maximum allowed ("
  ++ Number_toString MAX_QUERY_COMPLEXITY ++ lit ")".

Definition LF : jsstring := [10].
Definition fence : jsstring := lit "```".

Definition success_result (executionTime : Z) (endpoint query : jsstring)
    (response : AxiosResponse) : ToolResult :=
  let formattedQuery := formatGraphQLQuery query in
  let formattedData :=
    match resp_data (data response) with
    | Some v => JSON_stringify v
    | None => lit "undefined"
    end in
  let hasDefaultHeaders := negb (bool_decide (DEFAULT_HEADERS = ∅)) in
  {| content :=
       [text_block (lit "Query executed successfully in "
                    ++ Z_to_jsstring executionTime ++ lit "ms at "
                    ++ endpoint)]
       ++ (if hasDefaultHeaders
           then [text_block (lit "Using default headers: "
                             ++ JSON_stringify_headers DEFAULT_HEADERS)]
           else [])
       ++ [text_block (LF ++ lit "Query:" ++ LF ++ fence ++ lit "graphql"
                       ++ LF ++ formattedQuery ++ LF ++ fence);
           text_block (LF ++ lit "Result:" ++ LF ++ fence ++ lit "json"
                       ++ LF ++ formattedData ++ LF ++ fence)];
     isError := None |}.

(** The end of the [try] block, from [// Execute query] on. *)
Definition execute_and_report (query : jsstring)
    (processedVariables : option json) (endpoint : jsstring)
    (headers : Headers) (timeout : jsnum) : Async ToolResult :=
  let* startTime := now in
  let* response :=
    executeGraphQLQuery
      {| exec_endpoint := Some endpoint;
         exec_query := query;
         exec_variables := processedVariables;
         exec_headers := Some headers;
         exec_timeout := Some timeout |} in
  let* endTime := now in
  let executionTime := (endTime - startTime)%Z in
  match resp_errors (data response) with
  | Some errors =>
      let errorMessages := join (lit ", ") (map entry_message errors) in
      ret (error_result (lit "GraphQL server returned errors: "
                         ++ errorMessages))
  | None => ret (success_result executionTime endpoint query response)
  end.

(** The body of the [try] block. *)
Definition handleGraphQLQuery_try (query : jsstring)
    (variables : option json) (endpoint : jsstring) (headers : Headers)
    (timeout : jsnum) (allowMutations : bool) : Async ToolResult :=
  let* _ := lift (throwing (lit "GraphQLError") (parse query)) in
  if negb allowMutations && isMutation query
  then ret (error_result mutation_message)
  else
    let queryComplexity := calculateQueryComplexity query in
    if js_gt queryComplexity MAX_QUERY_COMPLEXITY
    then ret (error_result (complexity_message queryComplexity))
    else
      match variables with
      | Some (JString s) =>
          match JSON_parse s with
          | Ok v =>
              execute_and_report query (Some v) endpoint headers timeout
          | SyntaxError message =>
              ret (error_result (lit "Failed to parse variables as JSON: "
                                 ++ message))
          end
      | _ => execute_and_report query variables endpoint headers timeout
      end.

Definition handleGraphQLQuery (query : jsstring) (variables : option json)
    (endpoint : option jsstring) (headers : option Headers)
    (timeout : option jsnum) (allowMutations : option bool)
  : Async ToolResult :=
  try_catch
    (handleGraphQLQuery_try query variables
       (nullish endpoint DEFAULT_GRAPHQL_ENDPOINT)
       (nullish headers ∅)
       (nullish timeout DEFAULT_TIMEOUT)
       (nullish allowMutations false))
    (fun error =>
       let* errorMessage := lift (sanitizeErrorMessage error) in
       ret (error_result (lit "Error executing GraphQL query: "
                          ++ errorMessage))).
End Utils.

(** ** src/utils.ts: fetchGraphQLSchema; src/index.ts: the introspection
    handler and the dispatch of tool calls *)

(** The schema functions of graphql-js and what else the two functions
    need from outside: [getIntrospectionQuery descriptions
    inputValueDeprecation] is the text of the introspection query,
    [buildClientSchema] throws an [Error] on a result it cannot use,
    [JSON_stringify_errors] is [JSON.stringify] on the [errors] array, and
    [cannot_destructure p] is the message of the [TypeError] that
    destructuring [undefined] raises for a pattern whose first property is
    [p]. *)
Class SchemaExternals := {
  Schema : Type;
  getIntrospectionQuery : bool -> bool -> jsstring;
  buildClientSchema : option json -> Parsed Schema;
  printSchema : Schema -> jsstring;
  JSON_stringify_errors : list GraphQLErrorEntry -> jsstring;
  cannot_destructure : jsstring -> jsstring
}.

Definition throw {A} (e : jsvalue) : Async A := fun _ t => (Threw e, t).

Record FetchArgs := {
  fetch_endpoint : option jsstring;
  fetch_headers : option Headers;
  fetch_includeDeprecated : option bool;
  fetch_timeout : option jsnum
}.

(** The arguments of a tool call, read as the casts of the dispatcher
    declare them. *)
Record CallToolArguments := {
  args_query : jsstring;
  args_variables : option json;
  args_endpoint : option jsstring;
  args_headers : option Headers;
  args_timeout : option jsnum;
  args_allowMutations : option bool;
  args_includeDeprecated : option bool
}.

(** [request.params]: the tool's name and the arguments, which a caller
    may leave out. *)
Record CallToolRequest := {
  params_name : jsstring;
  params_arguments : option CallToolArguments
}.

Section Introspection.
Context {ext : Externals} {sch : SchemaExternals} {cfg : ConfigModule}.

Definition introspection_request (endpoint : option jsstring)
    (headers : option Headers) (includeDeprecated : option bool)
    (timeout : option jsnum) : HttpRequest :=
  {| url := nullish endpoint DEFAULT_GRAPHQL_ENDPOINT;
     body_query := getIntrospectionQuery true (nullish includeDeprecated true);
     body_variables := None;
     request_headers := request_headers_of (nullish headers ∅);
     request_timeout := nullish timeout DEFAULT_TIMEOUT |}.

Definition fetchGraphQLSchema (a : FetchArgs)
  : Async (Schema * option json) :=
  let endpoint := nullish (fetch_endpoint a) DEFAULT_GRAPHQL_ENDPOINT in
  let headers := nullish (fetch_headers a) ∅ in
  let includeDeprecated := nullish (fetch_includeDeprecated a) true in
  let timeout := nullish (fetch_timeout a) DEFAULT_TIMEOUT in
  let* response :=
    post {| url := endpoint;
            body_query := getIntrospectionQuery true includeDeprecated;
            body_variables := None;
            request_headers := request_headers_of headers;
            request_timeout := timeout |} in
  match resp_errors (data response) with
  | Some errors =>
      throw (VError (OtherError (lit "Error")
                       (lit "GraphQL server returned errors: "
                        ++ JSON_stringify_errors errors)))
  | None =>
      let introspectionResult := resp_data (data response) in
      let* schema :=
        lift (throwing (lit "Error") (buildClientSchema introspectionResult)) in
      ret (schema, introspectionResult)
  end.

Definition introspection_success (endpoint : jsstring) (schemaString : jsstring)
  : ToolResult :=
  let hasDefaultHeaders := negb (bool_decide (DEFAULT_HEADERS = ∅)) in
  {| content :=
       [text_block (lit "Schema introspection from " ++ endpoint
                    ++ lit " completed successfully")]
       ++ (if hasDefaultHeaders
           then [text_block (lit "Using default headers: "
                             ++ JSON_stringify_headers DEFAULT_HEADERS)]
           else [])
       ++ [text_block (LF ++ lit "GraphQL Schema:" ++ LF ++ fence
                       ++ lit "graphql" ++ LF ++ schemaString ++ LF ++ fence)];
     isError := None |}.

Definition handleGraphQLIntrospect (endpoint : option jsstring)
    (headers : option Headers) (includeDeprecated : option bool)
  : Async ToolResult :=
  let endpoint := nullish endpoint DEFAULT_GRAPHQL_ENDPOINT in
  let headers := nullish headers ∅ in
  let includeDeprecated := nullish includeDeprecated true in
  try_catch
    (let* fetched :=
       fetchGraphQLSchema
         {| fetch_endpoint := Some endpoint;
            fetch_headers := Some headers;
            fetch_includeDeprecated := Some includeDeprecated;
            fetch_timeout := None |} in
     let schemaString := printSchema fetched.1 in
     ret (introspection_success endpoint schemaString))
    (fun error =>
       let* errorMessage := lift (sanitizeErrorMessage error) in
       ret (error_result (lit "Error introspecting GraphQL schema: "
                          ++ errorMessage))).

(** Destructuring [request.params.arguments]. *)
Definition destructure (first_property : jsstring)
    (arguments : option CallToolArguments) : Async CallToolArguments :=
  match arguments with
  | Some a => ret a
  | None => throw (TypeError (cannot_destructure first_property))
  end.

(** The handler registered for [CallToolRequestSchema]. *)
Definition callTool (request : CallToolRequest) : Async ToolResult :=
  try_catch
    (if bool_decide (params_name request = lit "graphql_query") then
       let* a := destructure (lit "query") (params_arguments request) in
       handleGraphQLQuery (args_query a) (args_variables a) (args_endpoint a)
         (args_headers a) (args_timeout a) (args_allowMutations a)
     else if bool_decide (params_name request = lit "graphql_introspect") then
       let* a := destructure (lit "endpoint") (params_arguments request) in
       handleGraphQLIntrospect (args_endpoint a) (args_headers a)
         (args_includeDeprecated a)
     else
       ret (error_result (lit "Unknown tool: " ++ params_name request)))
    (fun error =>
       let* message :=
         lift (match error with
               | VError e => Returned (error_message e)
               | VErrorUnreadable thrown => Threw thrown
               | _ => String_of error
               end) in
       ret (error_result (lit "Error: " ++ message))).

End Introspection.

(** ** The legacy entry point: its complexity ceiling *)

Module Legacy.

(** [a || b] on numbers: [b] when [a] is [NaN] or zero. *)
Definition js_or (a b : jsnum) : jsnum :=
  match a with
  | JNaN => b
  | JInt z => if (z =? 0)%Z then b else a
  end.

(** [Number(process.env.MAX_DEPTH) || 100]. *)
Definition MAX_QUERY_COMPLEXITY {ext : Externals}
    (env : gmap (list N) (list N)) : jsnum :=
  js_or (Number_of_env (env !! lit "MAX_DEPTH")) (JInt 100).

End Legacy.

(** ** What the further statements speak about *)

(** The code units of [s] that are not white space, in order. *)
Definition visible (s : jsstring) : jsstring :=
  List.filter (fun c => negb (is_space c)) s.

(** The value [Object.assign] leaves under [k]: that of the last member
    named [k]. *)
Fixpoint last_member (k : jsstring) (members : list (jsstring * json))
  : option json :=
  match members with
  | [] => None
  | (k', v) :: rest =>
      match last_member k rest with
      | Some v' => Some v'
      | None => if bool_decide (k' = k) then Some v else None
      end
  end.

(** ** What the statements below speak about *)

(** The number of field selections of a document: one for each [Field]
    node, wherever it stands. *)
Fixpoint count_fields_selection (sel : SelectionNode) : nat :=
  let count_all :=
    fix go (l : list SelectionNode) : nat :=
      match l with
      | [] => 0%nat
      | x :: l' => (count_fields_selection x + go l')%nat
      end in
  match sel with
  | Field _ _ _ _ None => 1%nat
  | Field _ _ _ _ (Some sels) => Datatypes.S (count_all sels)
  | FragmentSpread _ _ => 0%nat
  | InlineFragment _ _ sels => count_all sels
  end.

Definition count_fields_selections (sels : list SelectionNode) : nat :=
  list_sum (map count_fields_selection sels).

Definition count_fields_definition (d : DefinitionNode) : nat :=
  match d with
  | OperationDefinition _ _ _ _ sels => count_fields_selections sels
  | FragmentDefinition _ _ _ sels => count_fields_selections sels
  | TypeSystemDefinition _ => 0%nat
  end.

Definition count_fields (doc : DocumentNode) : nat :=
  list_sum (map count_fields_definition (definitions doc)).

(** The document has a top-level operation definition of mutation type. *)
Definition contains_mutation (doc : DocumentNode) : Prop :=
  exists name variableDefinitions directives selectionSet,
    In (OperationDefinition MUTATION name variableDefinitions directives
          selectionSet)
       (definitions doc).

(** The variables once decoded: a string is parsed as JSON, anything else
    is kept. *)
Definition decode_variables {ext : Externals} (variables : option json)
  : Parsed (option json) :=
  match variables with
  | Some (JString s) =>
      match JSON_parse s with
      | Ok v => Ok (Some v)
      | SyntaxError message => SyntaxError message
      end
  | _ => Ok variables
  end.

(** The request a call of the handler issues once the variables are
    decoded. *)
Definition query_request {ext : Externals} {cfg : ConfigModule} (query : jsstring)
    (processedVariables : option json) (endpoint : option jsstring)
    (headers : option Headers) (timeout : option jsnum) : HttpRequest :=
  {| url := nullish endpoint DEFAULT_GRAPHQL_ENDPOINT;
     body_query := query;
     body_variables := processedVariables;
     request_headers := request_headers_of (nullish headers ∅);
     request_timeout := nullish timeout DEFAULT_TIMEOUT |}.

(** The mutation gate lets the call through. *)
Definition passes_mutation_gate (allowMutations : option bool)
    (document : DocumentNode) : Prop :=
  allowMutations = Some true \/ ~ contains_mutation document.

(** What a call of the handler does once both gates are passed: decode
    the variables, read the clock, issue the request, read the clock
    again, report. *)
Definition after_gates {ext : Externals} {cfg : ConfigModule}
    (query : jsstring) (variables : option json) (endpoint : option jsstring)
    (headers : option Headers) (timeout : option jsnum)
    (w : World) (t : Trace) : Outcome ToolResult * Trace :=
  match decode_variables variables with
  | SyntaxError message =>
      (Returned (error_result (lit "Failed to parse variables as JSON: "
                               ++ message)), t)
  | Ok decoded =>
      let t1 := {| requests := requests t;
                   clock_reads := Datatypes.S (clock_reads t) |} in
      match decode_variables decoded with
      | SyntaxError message =>
          (Returned (error_result (lit "Error executing GraphQL query: "
                                   ++ message)), t1)
      | Ok processedVariables =>
          let req := query_request query processedVariables endpoint
                       headers timeout in
          let t2 := {| requests := requests t ++ [req];
                       clock_reads := Datatypes.S (clock_reads t) |} in
          match axios_post w req with
          | Rejected error =>
              (match sanitizeErrorMessage (VError error) with
               | Returned errorMessage =>
                   Returned (error_result
                               (lit "Error executing GraphQL query: "
                                ++ errorMessage))
               | Threw e => Threw e
               end, t2)
          | Resolved response =>
              let t3 := {| requests := requests t ++ [req];
                           clock_reads :=
                             Datatypes.S (Datatypes.S (clock_reads t)) |} in
              match resp_errors (data response) with
              | Some errors =>
                  (Returned
                     (error_result
                        (lit "GraphQL server returned errors: "
                         ++ join (lit ", ") (map entry_message errors))), t3)
              | None =>
                  (Returned
                     (success_result
                        (Date_now w (Datatypes.S (clock_reads t))
                         - Date_now w (clock_reads t))
                        (nullish endpoint DEFAULT_GRAPHQL_ENDPOINT)
                        query response), t3)
              end
          end
      end
  end.


(** The messages, each one after the first preceded by a comma and a
    space. *)
Definition comma_separated (messages : list jsstring) : jsstring :=
  match messages with
  | [] => []
  | first :: others => first ++ concat (map (fun m => lit ", " ++ m) others)
  end.

(** No two adjacent code units of [s] are both white space. *)
Definition no_adjacent_spaces (s : jsstring) : Prop :=
  forall i a b,
    s !! i = Some a -> s !! Datatypes.S i = Some b ->
    is_space a = true -> is_space b = false.

Definition no_outer_spaces (s : jsstring) : Prop :=
  (forall c, head s = Some c -> is_space c = false)
  /\ (forall c, last s = Some c -> is_space c = false).

(** [compact b s]: every white-space unit of [s] is a single U+0020 that
    follows a unit which is not white space; [b] says that the unit
    before [s] was white space. *)
Fixpoint compact (b : bool) (s : jsstring) : bool :=
  match s with
  | [] => true
  | c :: s' =>
      if is_space c then negb b && (c =? SP) && compact true s'
      else compact false s'
  end.

(** A start without any flag. *)
Definition no_flags : CommandLine :=
  {| flag_endpoint := None; flag_headers := None;
     flag_timeout := None; flag_maxComplexity := None |}.

(** ** A small instance, to run the definitions on *)

Module Sample.

Definition leaf (name : string) : SelectionNode :=
  Field None (lit name) [] [] None.

Definition typename_query : DocumentNode :=
  {| definitions := [OperationDefinition QUERY None [] [] [leaf "__typename"]] |}.

Definition two_field_mutation : DocumentNode :=
  {| definitions :=
       [OperationDefinition MUTATION None [] [] [leaf "a"; leaf "b"]] |}.

Definition two_field_query : DocumentNode :=
  {| definitions :=
       [OperationDefinition QUERY None [] []
          [Field (Some (lit "x")) (lit "a") [] [] (Some [leaf "b"])]] |}.

(** A parser that knows three documents and rejects everything else. *)
Definition sample_parse (q : jsstring) : Parsed DocumentNode :=
  if bool_decide (q = lit "{ __typename }") then Ok typename_query
  else if bool_decide (q = lit "mutation { a b }") then Ok two_field_mutation
  else if bool_decide (q = lit "{ x: a { b } }") then Ok two_field_query
  else SyntaxError (lit "Syntax Error: Unexpected character.").

Definition sample_JSON_parse (s : jsstring) : Parsed json :=
  if bool_decide (s = lit "{}") then Ok (JObject [])
  else SyntaxError (lit "Unexpected token in JSON").

#[export] Instance externals : Externals :=
  {| parse := sample_parse;
     JSON_parse := sample_JSON_parse;
     JSON_stringify := fun _ => lit "{}";
     JSON_stringify_headers := fun _ => lit "{}";
     StringToNumber := fun _ => JNaN;
     packageVersion := lit "1.0.0" |}.

(** Started with [--maxComplexity=1 --timeout=5000]. *)
Definition strict_flags : CommandLine :=
  {| flag_endpoint := None; flag_headers := None;
     flag_timeout := Some (JInt 5000); flag_maxComplexity := Some (JInt 1) |}.

#[export] Instance strict : ConfigModule :=
  {| config := new_Config strict_flags ∅ |}.

(** Started with [--maxComplexity=2]. *)
Definition lenient : ConfigModule :=
  {| config :=
       new_Config
         {| flag_endpoint := None; flag_headers := None;
            flag_timeout := Some (JInt 5000);
            flag_maxComplexity := Some (JInt 2) |} ∅ |}.

Definition field_X_response : AxiosResponse :=
  {| status := 200;
     data := {| resp_data := None;
                resp_errors :=
                  Some [{| entry_message := lit "field X not found" |}] |} |}.

(** An endpoint that answers every request with one GraphQL error. *)
Definition failing_endpoint : World :=
  {| axios_post := fun _ => Resolved field_X_response;
     Date_now := fun n => (1000 + Z.of_nat n)%Z |}.

(** A configuration with two default headers. *)
Definition with_default_headers : ConfigModule :=
  {| config :=
       {| endpoint := lit "http://localhost:4000/graphql";
          maxQueryComplexity := JInt 100;
          timeout := JInt 30000;
          headers :=
            <[lit "Authorization" := JString (lit "Bearer default")]>
              {[ lit "X-Trace" := JString (lit "on") ]};
          version := lit "1.0.0" |} |}.

Definition request_token : Headers :=
  {[ lit "Authorization" := JString (lit "Bearer request") ]}.

(** An endpoint that answers [{"data": {"__typename": "Query"}}]. *)
Definition typename_endpoint : World :=
  {| axios_post := fun _ =>
       Resolved
         {| status := 200;
            data := {| resp_data :=
                         Some (JObject [(lit "__typename",
                                         JString (lit "Query"))]);
                       resp_errors := None |} |};
     Date_now := fun n => (1000 + 12 * Z.of_nat n)%Z |}.

Definition plain_text : Headers :=
  {[ lit "Content-Type" := JString (lit "text/plain") ]}.

Definition bare_query (headers : option Headers) : ExecuteArgs :=
  {| exec_endpoint := None; exec_query := lit "{ __typename }";
     exec_variables := None; exec_headers := headers;
     exec_timeout := None |}.

(** A schema library whose schemas are their own text. *)
#[export] Instance schema_externals : SchemaExternals :=
  {| Schema := jsstring;
     getIntrospectionQuery := fun _ inputValueDeprecation =>
       if inputValueDeprecation
       then lit "query IntrospectionQuery { __schema { deprecated } }"
       else lit "query IntrospectionQuery { __schema { current } }";
     buildClientSchema := fun result =>
       match result with
       | Some (JString sdl) => Ok sdl
       | _ => SyntaxError (lit "Invalid or incomplete introspection result.")
       end;
     printSchema := fun schema => schema;
     JSON_stringify_errors := fun _ => lit "[...]";
     cannot_destructure := fun p =>
       lit "Cannot destructure property '" ++ p ++ lit "' of undefined." |}.

(** An endpoint that answers every request with status 500. *)
Definition broken_endpoint : World :=
  {| axios_post := fun _ =>
       Rejected
         (AxiosError (lit "Request failed with status code 500")
            (Some {| status := 500;
                     data := {| resp_data := None; resp_errors := None |} |})
            true);
     Date_now := fun n => (1000 + Z.of_nat n)%Z |}.

(** An endpoint that answers the schema [type Query]. *)
Definition schema_endpoint : World :=
  {| axios_post := fun _ =>
       Resolved
         {| status := 200;
            data := {| resp_data := Some (JString (lit "type Query"));
                       resp_errors := None |} |};
     Date_now := fun n => (1000 + Z.of_nat n)%Z |}.

Definition no_arguments : CallToolArguments :=
  {| args_query := lit "{ __typename }"; args_variables := None;
     args_endpoint := None; args_headers := None; args_timeout := None;
     args_allowMutations := None; args_includeDeprecated := None |}.

(** Started with no flag: the ceiling is [NaN]. *)
Definition unconfigured : ConfigModule :=
  {| config := new_Config no_flags ∅ |}.

(** [s] between double quotes. *)
Definition quoted (s : jsstring) : jsstring := [34] ++ s ++ [34].

Definition authorization_json : jsstring :=
  lit "{" ++ quoted (lit "Authorization") ++ lit ":"
  ++ quoted (lit "Bearer flag") ++ lit "}".

(** A [JSON.parse] that knows an empty object, a header object and two
    string literals, one holding JSON text and one not. *)
Definition quoting_JSON_parse (s : jsstring) : Parsed json :=
  if bool_decide (s = lit "{}") then Ok (JObject [])
  else if bool_decide (s = authorization_json)
  then Ok (JObject [(lit "Authorization", JString (lit "Bearer flag"))])
  else if bool_decide (s = quoted (lit "{}")) then Ok (JString (lit "{}"))
  else if bool_decide (s = quoted (lit "oops")) then Ok (JString (lit "oops"))
  else SyntaxError (lit "Unexpected token in JSON").

Definition quoting_externals : Externals :=
  {| parse := sample_parse;
     JSON_parse := quoting_JSON_parse;
     JSON_stringify := fun _ => lit "{}";
     JSON_stringify_headers := fun _ => lit "{}";
     StringToNumber := fun s =>
       if bool_decide (s = lit "250") then JInt 250 else JNaN;
     packageVersion := lit "1.0.0" |}.

(** An endpoint that answers every request with two GraphQL errors. *)
Definition two_errors_endpoint : World :=
  {| axios_post := fun _ =>
       Resolved
         {| status := 200;
            data := {| resp_data := None;
                       resp_errors :=
                         Some [{| entry_message := lit "field X not found" |};
                               {| entry_message := lit "field Y not found" |}]
                    |} |};
     Date_now := fun n => (1000 + Z.of_nat n)%Z |}.

End Sample.

(** * Theorems *)

(** ** The definitions at work *)

Example formatGraphQLQuery_sample :
  formatGraphQLQuery (lit "  query   { a
     b }  ") = lit "query { a b }".
Proof. reflexivity. Qed.

Example Z_to_jsstring_sample :
  Z_to_jsstring 101 = lit "101" /\ Z_to_jsstring 0 = lit "0"
  /\ Z_to_jsstring (-7) = lit "-7".
Proof. repeat split; reflexivity. Qed.

Example join_sample :
  join (lit ", ") [lit "a"; lit "b"; lit "c"] = lit "a, b, c"
  /\ join (lit ", ") [] = [].
Proof. split; reflexivity. Qed.

(** A query within the ceiling against an endpoint that answers: three
    text blocks, no error flag, one request, two clock readings. *)
Example handleGraphQLQuery_success :
  @handleGraphQLQuery Sample.externals Sample.strict
    (lit "{ __typename }") None None None None None
    Sample.typename_endpoint start
  = (Returned
       {| content :=
            [{| type := lit "text";
                text := lit "Query executed successfully in 12ms at http://localhost:4000/graphql" |};
             {| type := lit "text";
                text := [10] ++ lit "Query:" ++ [10] ++ lit "```graphql"
                        ++ [10] ++ lit "{ __typename }" ++ [10]
                        ++ lit "```" |};
             {| type := lit "text";
                text := [10] ++ lit "Result:" ++ [10] ++ lit "```json"
                        ++ [10] ++ lit "{}" ++ [10] ++ lit "```" |}];
          isError := None |},
     {| requests :=
          [{| url := lit "http://localhost:4000/graphql";
              body_query := lit "{ __typename }";
              body_variables := None;
              request_headers := @request_headers_of Sample.strict ∅;
              request_timeout := JInt 5000 |}];
        clock_reads := 2 |}).
Proof. reflexivity. Qed.

(** ** White-space normalisation *)

Section Formatting.

Lemma is_space_SP : is_space SP = true.
Proof. reflexivity. Qed.

Lemma replace_ws_runs_compact b s : compact b (replace_ws_runs b s) = true.
Proof.
  revert b; induction s as [|c s IH]; intros b;
    cbn [replace_ws_runs compact]; [done|].
  destruct (is_space c) eqn:Hc.
  - destruct b; [apply IH|].
    cbn [compact]. rewrite is_space_SP, N.eqb_refl. apply IH.
  - cbn [compact]. rewrite Hc. apply IH.
Qed.

Lemma compact_fixed b s : compact b s = true -> replace_ws_runs b s = s.
Proof.
  revert b; induction s as [|c s IH]; intros b; simpl; [done|].
  destruct (is_space c) eqn:Hc.
  - intros Hb. apply andb_prop in Hb as [Hb Hs].
    apply andb_prop in Hb as [Hb Hsp].
    apply N.eqb_eq in Hsp. destruct b; [discriminate|].
    rewrite (IH true Hs). by rewrite Hsp.
  - intros Hs. by rewrite (IH false Hs).
Qed.

Lemma compact_weaken b s : compact b s = true -> compact false s = true.
Proof.
  destruct s as [|c s]; simpl; [done|].
  destruct (is_space c); [|done].
  destruct b; simpl; [discriminate|done].
Qed.

Lemma trimStart_compact b b' s :
  compact b s = true -> compact b' (trimStart s) = true.
Proof.
  revert b; induction s as [|c s IH]; intros b; simpl; [done|].
  destruct (is_space c) eqn:Hc.
  - intros Hb. apply andb_prop in Hb as [_ Hs]. by apply (IH true).
  - intros Hs. simpl. by rewrite Hc.
Qed.

Lemma trimEnd_compact b s :
  compact b s = true -> compact b (trimEnd s) = true.
Proof.
  revert b; induction s as [|c s IH]; intros b; simpl; [done|].
  destruct (is_space c) eqn:Hc.
  - intros Hb. apply andb_prop in Hb as [Hb Hs].
    specialize (IH true Hs).
    destruct (trimEnd s) as [|d t]; [done|].
    change (compact b (c :: d :: t) = true).
    cbn [compact]. rewrite Hc, Hb. exact IH.
  - intros Hs. specialize (IH false Hs).
    destruct (trimEnd s) as [|d t]; cbn [compact]; rewrite Hc; done.
Qed.

Lemma trimStart_head s c : head (trimStart s) = Some c -> is_space c = false.
Proof.
  induction s as [|d s IH]; simpl; [done|].
  destruct (is_space d) eqn:Hd; [done|].
  simpl. by intros [= <-].
Qed.

Lemma trimStart_fixed s :
  (forall c, head s = Some c -> is_space c = false) -> trimStart s = s.
Proof.
  destruct s as [|d s]; simpl; [done|].
  intros Hd. by rewrite (Hd d eq_refl).
Qed.

Lemma trimEnd_head s c : head (trimEnd s) = Some c -> head s = Some c.
Proof.
  destruct s as [|d s]; simpl; [done|].
  destruct (trimEnd s); [|done].
  by destruct (is_space d).
Qed.

Lemma trimEnd_last s c : last (trimEnd s) = Some c -> is_space c = false.
Proof.
  induction s as [|d s IH]; simpl; [done|].
  destruct (trimEnd s) as [|e t].
  - destruct (is_space d) eqn:Hd; simpl; [done|]. by intros [= <-].
  - intros Hl. apply IH. exact Hl.
Qed.

Lemma trimEnd_idempotent s : trimEnd (trimEnd s) = trimEnd s.
Proof.
  induction s as [|d s IH]; simpl; [done|].
  destruct (trimEnd s) as [|e t] eqn:Ht.
  - destruct (is_space d) eqn:Hd; simpl; [done|]. by rewrite Hd.
  - change (trimEnd (d :: e :: t)) with
      (match trimEnd (e :: t) with
       | [] => if is_space d then [] else [d]
       | u => d :: u
       end).
    by rewrite IH.
Qed.

(** [trimEnd] is [trimStart] seen from the other end. *)
Lemma trimStart_snoc s c :
  trimStart (s ++ [c]) =
  match trimStart s with
  | [] => if is_space c then [] else [c]
  | t => t ++ [c]
  end.
Proof.
  induction s as [|d s IH]; cbn [app trimStart]; [done|].
  by destruct (is_space d).
Qed.

Lemma trimEnd_mirrors_trimStart s : trimEnd s = rev (trimStart (rev s)).
Proof.
  induction s as [|c s IH]; [done|].
  cbn [trimEnd rev]. rewrite trimStart_snoc, IH.
  destruct (trimStart (rev s)) as [|x u]; cbn [rev].
  - by destruct (is_space c).
  - rewrite rev_app_distr. cbn [rev app].
    destruct (rev u ++ [x]) eqn:Hu; [|done].
    by destruct (rev u).
Qed.

Lemma compact_no_adjacent b s : compact b s = true -> no_adjacent_spaces s.
Proof.
  revert b; induction s as [|c s IH]; intros b Hs i x y Hx Hy Hsx.
  { done. }
  simpl in Hs. destruct i as [|i]; simpl in Hx, Hy.
  - injection Hx as ->. rewrite Hsx in Hs.
    apply andb_prop in Hs as [_ Hs].
    destruct s as [|d s]; [done|]. simpl in Hy. injection Hy as ->.
    simpl in Hs. destruct (is_space y); [discriminate|done].
  - destruct (is_space c).
    + apply andb_prop in Hs as [_ Hs]. exact (IH true Hs i x y Hx Hy Hsx).
    + exact (IH false Hs i x y Hx Hy Hsx).
Qed.

Lemma formatGraphQLQuery_compact q :
  compact false (formatGraphQLQuery q) = true.
Proof.
  unfold formatGraphQLQuery, trim.
  apply trimEnd_compact, (trimStart_compact false), replace_ws_runs_compact.
Qed.

Lemma formatGraphQLQuery_no_outer_spaces q :
  no_outer_spaces (formatGraphQLQuery q).
Proof.
  unfold formatGraphQLQuery, trim. split; intros c Hc.
  - apply trimEnd_head in Hc. by apply trimStart_head in Hc.
  - by apply trimEnd_last in Hc.
Qed.

End Formatting.

(** C10: [formatGraphQLQuery] is idempotent, and its result has no two
    adjacent white-space characters and no white space at either end. *)
Theorem formatGraphQLQuery_idempotent (q : jsstring) :
  formatGraphQLQuery (formatGraphQLQuery q) = formatGraphQLQuery q
  /\ no_adjacent_spaces (formatGraphQLQuery q)
  /\ no_outer_spaces (formatGraphQLQuery q).
Proof.
  pose proof (formatGraphQLQuery_compact q) as Hc.
  pose proof (formatGraphQLQuery_no_outer_spaces q) as Ho.
  split; [|split; [by apply (compact_no_adjacent false)|done]].
  set (o := formatGraphQLQuery q) in *.
  unfold formatGraphQLQuery at 1, trim.
  rewrite (compact_fixed false o Hc).
  rewrite (trimStart_fixed o (proj1 Ho)).
  subst o. unfold formatGraphQLQuery, trim. apply trimEnd_idempotent.
Qed.

(** ** The visitor and the field count *)

Section SelectionInduction.
Variable P : SelectionNode -> Prop.
Hypothesis leaf_case :
  forall alias name arguments directives,
    P (Field alias name arguments directives None).
Hypothesis field_case :
  forall alias name arguments directives sels,
    Forall P sels -> P (Field alias name arguments directives (Some sels)).
Hypothesis spread_case : forall name directives, P (FragmentSpread name directives).
Hypothesis inline_case :
  forall typeCondition directives sels,
    Forall P sels -> P (InlineFragment typeCondition directives sels).

Lemma SelectionNode_nested_ind (sel : SelectionNode) : P sel.
Proof.
  revert sel. fix IH 1.
  assert (forall l : list SelectionNode, Forall P l) as Hall.
  { fix IHl 1. intros [|x l]; constructor; [apply IH|apply IHl]. }
  intros [alias name arguments directives [sels|]|name directives
         |typeCondition directives sels].
  - apply field_case, Hall.
  - apply leaf_case.
  - apply spread_case.
  - apply inline_case, Hall.
Qed.
End SelectionInduction.

Section Counting.
Context {ext : Externals} {cfg : ConfigModule}.

(** The local loops of the two recursive definitions are folds. *)
Lemma visit_selection_unfold {S} (v : Visitor S) sel st :
  visit_selection v sel st =
  let st := enter v (selection_kind sel) st in
  match sel with
  | Field _ _ _ _ None => st
  | Field _ _ _ _ (Some sels) => visit_selectionSet v sels st
  | FragmentSpread _ _ => st
  | InlineFragment _ _ sels => visit_selectionSet v sels st
  end.
Proof.
  unfold visit_selectionSet.
  destruct sel as [a n args dirs [sels|]|n dirs|tc dirs sels]; cbn; try done.
  - generalize (enter v SELECTION_SET (enter v FIELD st)).
    induction sels as [|x sels IH]; intros s0; cbn; [done|apply IH].
  - generalize (enter v SELECTION_SET (enter v INLINE_FRAGMENT st)).
    induction sels as [|x sels IH]; intros s0; cbn; [done|apply IH].
Qed.

Lemma count_fields_selection_unfold sel :
  count_fields_selection sel =
  match sel with
  | Field _ _ _ _ None => 1%nat
  | Field _ _ _ _ (Some sels) => Datatypes.S (count_fields_selections sels)
  | FragmentSpread _ _ => 0%nat
  | InlineFragment _ _ sels => count_fields_selections sels
  end.
Proof.
  unfold count_fields_selections.
  destruct sel as [a n args dirs [sels|]|n dirs|tc dirs sels]; cbn; try done.
  - f_equal. induction sels as [|x sels IH]; cbn; [done|by rewrite IH].
  - induction sels as [|x sels IH]; cbn; [done|by rewrite IH].
Qed.

Lemma visit_selections_count sels st :
  Forall (fun sel => forall st,
            visit_selection field_counter sel st
            = (st + Z.of_nat (count_fields_selection sel))%Z) sels ->
  foldl (fun st x => visit_selection field_counter x st) st sels
  = (st + Z.of_nat (count_fields_selections sels))%Z.
Proof.
  unfold count_fields_selections, list_sum.
  intros Hall; revert st; induction Hall as [|x l Hx _ IH]; intros st;
    cbn [foldl map foldr].
  - lia.
  - rewrite Hx, IH. lia.
Qed.

Lemma visit_selection_count sel :
  forall st,
    visit_selection field_counter sel st
    = (st + Z.of_nat (count_fields_selection sel))%Z.
Proof.
  induction sel using SelectionNode_nested_ind; intros st;
    rewrite visit_selection_unfold, count_fields_selection_unfold;
    unfold visit_selectionSet; cbn [selection_kind enter field_counter].
  - lia.
  - rewrite visit_selections_count by assumption. lia.
  - lia.
  - by rewrite visit_selections_count.
Qed.

Lemma visit_definition_count d st :
  visit_definition field_counter d st
  = (st + Z.of_nat (count_fields_definition d))%Z.
Proof.
  destruct d; cbn; unfold visit_selectionSet; cbn; try lia;
    apply visit_selections_count, Forall_forall;
    intros sel _; apply visit_selection_count.
Qed.

Lemma visit_count doc :
  visit field_counter doc 0%Z = Z.of_nat (count_fields doc).
Proof.
  assert (forall l st,
    foldl (fun st d => visit_definition field_counter d st) st l
    = (st + Z.of_nat (list_sum (map count_fields_definition l)))%Z) as Hl.
  { unfold list_sum.
    induction l as [|d l IH]; intros st; cbn [foldl map foldr]; [lia|].
    rewrite IH, visit_definition_count. lia. }
  unfold visit, count_fields. cbn [enter field_counter].
  rewrite Hl. lia.
Qed.

Lemma calculateQueryComplexity_parsed query document :
  parse query = Ok document ->
  calculateQueryComplexity query = JInt (Z.of_nat (count_fields document)).
Proof.
  intros Hp. unfold calculateQueryComplexity. rewrite Hp.
  by rewrite visit_count.
Qed.

End Counting.

(** C7: on a query that parses, [calculateQueryComplexity] is the number of
    [Field] nodes of the document, each counted once whatever its depth,
    alias or arguments; on a query that does not parse it is the configured
    ceiling plus one. *)
Theorem calculateQueryComplexity_counts_fields
    {ext : Externals} {cfg : ConfigModule} (query : jsstring) :
  (forall document,
      parse query = Ok document ->
      calculateQueryComplexity query = JInt (Z.of_nat (count_fields document)))
  /\ (forall message,
         parse query = SyntaxError message ->
         calculateQueryComplexity query
         = js_add MAX_QUERY_COMPLEXITY (JInt 1)).
Proof.
  split.
  - intros document. apply calculateQueryComplexity_parsed.
  - intros message Hp. unfold calculateQueryComplexity. by rewrite Hp.
Qed.

Lemma calculateQueryComplexity_counts_fields_witness :
  @calculateQueryComplexity Sample.externals Sample.strict
    (lit "{ x: a { b } }") = JInt 2
  /\ @calculateQueryComplexity Sample.externals Sample.strict (lit "{ a")
     = JInt 2.
Proof.
  destruct (@calculateQueryComplexity_counts_fields
              Sample.externals Sample.strict (lit "{ x: a { b } }"))
    as [Hparsed _].
  destruct (@calculateQueryComplexity_counts_fields
              Sample.externals Sample.strict (lit "{ a"))
    as [_ Hrejected].
  split.
  - exact (Hparsed Sample.two_field_query eq_refl).
  - exact (Hrejected (lit "Syntax Error: Unexpected character.") eq_refl).
Defined.

(** ** The configuration resolver *)

(** C2, at a start with no flag and an empty environment: the endpoint is
    the documented default and the headers are empty, but the timeout and
    the complexity ceiling are [NaN], since [Number(undefined) ?? d] never
    reaches [d]. *)
Theorem new_Config_without_flags_or_env {ext : Externals} :
  let c := new_Config no_flags ∅ in
  endpoint c = lit "http://localhost:4000/graphql"
  /\ headers c = ∅
  /\ timeout c = JNaN
  /\ maxQueryComplexity c = JNaN.
Proof. repeat split. Qed.

(** ** The outgoing request *)

Section Requests.
Context {ext : Externals} {cfg : ConfigModule}.

Lemma request_headers_of_lookup (R : Headers) (k : jsstring) :
  request_headers_of R !! k =
  match R !! k with
  | Some r => Some r
  | None =>
      match DEFAULT_HEADERS !! k with
      | Some d => Some d
      | None => protocol_headers !! k
      end
  end.
Proof.
  unfold request_headers_of, spread. rewrite !lookup_union.
  destruct (R !! k), (DEFAULT_HEADERS !! k), (protocol_headers !! k); done.
Qed.

Lemma protocol_headers_lookup (k : jsstring) :
  k = lit "Content-Type" \/ k = lit "Accept" ->
  protocol_headers !! k = Some (JString (lit "application/json")).
Proof.
  unfold protocol_headers. intros [-> | ->].
  - rewrite lookup_insert_ne by discriminate. apply lookup_insert_eq.
  - apply lookup_insert_eq.
Qed.

(** One call of [executeGraphQLQuery], once the variables decode. *)
Lemma executeGraphQLQuery_decoded a w t processedVariables :
  decode_variables (exec_variables a) = Ok processedVariables ->
  let req :=
    {| url := nullish (exec_endpoint a) DEFAULT_GRAPHQL_ENDPOINT;
       body_query := exec_query a;
       body_variables := processedVariables;
       request_headers := request_headers_of (nullish (exec_headers a) ∅);
       request_timeout := nullish (exec_timeout a) DEFAULT_TIMEOUT |} in
  executeGraphQLQuery a w t =
  (match axios_post w req with
   | Resolved response => Returned response
   | Rejected error => Threw (VError error)
   end,
   {| requests := requests t ++ [req]; clock_reads := clock_reads t |}).
Proof.
  unfold decode_variables, executeGraphQLQuery, bind, lift, ret, post.
  destruct (exec_variables a) as [[| | |s| |]|]; cbn;
    try (intros [= <-]; by destruct (axios_post w _)).
  destruct (JSON_parse s); cbn; [|discriminate].
  intros [= <-]; by destruct (axios_post w _).
Qed.

Lemma executeGraphQLQuery_undecoded a w t message :
  decode_variables (exec_variables a) = SyntaxError message ->
  executeGraphQLQuery a w t =
  (Threw (VError (OtherError (lit "SyntaxError") message)), t).
Proof.
  unfold decode_variables, executeGraphQLQuery, bind, lift, ret, post.
  destruct (exec_variables a) as [[| | |s| |]|]; cbn; try discriminate.
  destruct (JSON_parse s); cbn; [discriminate|]. by intros [= <-].
Qed.

End Requests.

(** C3: the request that [executeGraphQLQuery] issues carries the headers
    [{Content-Type, Accept: application/json}], then the configured
    defaults [D], then the request's own [R], a later set overriding an
    earlier one; a key in both [D] and [R] is sent with the value of [R]. *)
Theorem executeGraphQLQuery_merges_headers
    {ext : Externals} {cfg : ConfigModule}
    (a : ExecuteArgs) (w : World) (processedVariables : option json) :
  decode_variables (exec_variables a) = Ok processedVariables ->
  let D := DEFAULT_HEADERS in
  let R := nullish (exec_headers a) ∅ in
  exists req,
    requests (executeGraphQLQuery a w start).2 = [req]
    /\ request_headers req = spread (spread protocol_headers D) R
    /\ (forall k,
          request_headers req !! k =
          match R !! k with
          | Some r => Some r
          | None => match D !! k with
                    | Some d => Some d
                    | None => protocol_headers !! k
                    end
          end)
    /\ (forall k d r,
          D !! k = Some d -> R !! k = Some r ->
          request_headers req !! k = Some r).
Proof.
  intros Hv D R.
  rewrite (executeGraphQLQuery_decoded a w start _ Hv).
  eexists; split; [reflexivity|]. cbn [request_headers].
  split; [reflexivity|]. split.
  - apply request_headers_of_lookup.
  - intros k d r _ Hr. rewrite request_headers_of_lookup. fold R. by rewrite Hr.
Qed.

Lemma executeGraphQLQuery_merges_headers_witness :
  exists req,
    requests (@executeGraphQLQuery Sample.externals Sample.with_default_headers
                (Sample.bare_query (Some Sample.request_token))
                Sample.failing_endpoint start).2 = [req]
    /\ request_headers req !! lit "Authorization"
       = Some (JString (lit "Bearer request"))
    /\ request_headers req !! lit "X-Trace" = Some (JString (lit "on"))
    /\ request_headers req !! lit "Accept"
       = Some (JString (lit "application/json")).
Proof.
  destruct (@executeGraphQLQuery_merges_headers
              Sample.externals Sample.with_default_headers
              (Sample.bare_query (Some Sample.request_token))
              Sample.failing_endpoint None eq_refl)
    as (req & Hreq & _ & Hlookup & Hcollide).
  exists req. split; [exact Hreq|]. split; [|split].
  - exact (Hcollide (lit "Authorization") (JString (lit "Bearer default"))
             (JString (lit "Bearer request")) eq_refl eq_refl).
  - rewrite Hlookup. reflexivity.
  - rewrite Hlookup. reflexivity.
Defined.

(** C4, as stated, fails: a request header [Content-Type: text/plain]
    replaces the protocol's [application/json] in the request issued. *)
Lemma request_Content_Type_overrides_protocol :
  exists req,
    requests (@executeGraphQLQuery Sample.externals Sample.strict
                (Sample.bare_query (Some Sample.plain_text))
                Sample.failing_endpoint start).2 = [req]
    /\ request_headers req !! lit "Content-Type"
       = Some (JString (lit "text/plain"))
    /\ request_headers req !! lit "Content-Type"
       <> Some (JString (lit "application/json")).
Proof.
  eexists. split; [reflexivity|]. cbn [request_headers].
  assert (@request_headers_of Sample.strict Sample.plain_text
            !! lit "Content-Type" = Some (JString (lit "text/plain"))) as Hct.
  { etrans; [apply (@request_headers_of_lookup Sample.strict)|reflexivity]. }
  split; [exact Hct|]. intros Hbad.
  pose proof (eq_trans (eq_sym Hct) Hbad) as Hneq. discriminate Hneq.
Qed.

(** C4, amended: [Content-Type] and [Accept] are sent as
    [application/json] when neither the configured defaults nor the request
    headers have an entry under that name; an entry of the request headers,
    or else of the defaults, is sent in its place. *)
Theorem protocol_headers_unless_overridden
    {ext : Externals} {cfg : ConfigModule}
    (a : ExecuteArgs) (w : World) (processedVariables : option json)
    (k : jsstring) :
  decode_variables (exec_variables a) = Ok processedVariables ->
  k = lit "Content-Type" \/ k = lit "Accept" ->
  let D := DEFAULT_HEADERS in
  let R := nullish (exec_headers a) ∅ in
  exists req,
    requests (executeGraphQLQuery a w start).2 = [req]
    /\ (R !! k = None -> D !! k = None ->
        request_headers req !! k = Some (JString (lit "application/json")))
    /\ (forall r, R !! k = Some r -> request_headers req !! k = Some r)
    /\ (forall d, R !! k = None -> D !! k = Some d ->
        request_headers req !! k = Some d).
Proof.
  intros Hv Hk D R.
  rewrite (executeGraphQLQuery_decoded a w start _ Hv).
  eexists; split; [reflexivity|]. cbn [request_headers].
  rewrite request_headers_of_lookup. fold R D.
  rewrite (protocol_headers_lookup k Hk).
  repeat split.
  - by intros -> ->.
  - by intros r ->.
  - by intros d -> ->.
Qed.

Lemma protocol_headers_unless_overridden_witness :
  exists req,
    requests (@executeGraphQLQuery Sample.externals Sample.with_default_headers
                (Sample.bare_query (Some Sample.request_token))
                Sample.failing_endpoint start).2 = [req]
    /\ request_headers req !! lit "Content-Type"
       = Some (JString (lit "application/json")).
Proof.
  destruct (@protocol_headers_unless_overridden
              Sample.externals Sample.with_default_headers
              (Sample.bare_query (Some Sample.request_token))
              Sample.failing_endpoint None (lit "Content-Type")
              eq_refl (or_introl eq_refl))
    as (req & Hreq & Hdefault & _).
  exists req. split; [exact Hreq|].
  apply Hdefault; reflexivity.
Defined.

(** ** Error sanitisation *)




(** ** The query handler *)

Section Handler.
Context {ext : Externals} {cfg : ConfigModule}.

Lemma any_mutation_spec defs :
  any_mutation defs = true <->
  exists name variableDefinitions directives selectionSet,
    In (OperationDefinition MUTATION name variableDefinitions directives
          selectionSet) defs.
Proof.
  induction defs as [|d defs IH]; cbn [any_mutation In].
  - split; [discriminate|]. by intros (? & ? & ? & ? & []).
  - destruct (is_mutation_definition d) eqn:Hd.
    + split; [intros _|done].
      destruct d as [[| |] n v ds sels| |]; try discriminate.
      exists n, v, ds, sels. by left.
    + rewrite IH. split.
      * intros (n & v & ds & sels & Hin). exists n, v, ds, sels. by right.
      * intros (n & v & ds & sels & [-> | Hin]); [discriminate|].
        by exists n, v, ds, sels.
Qed.

Lemma isMutation_parsed query document :
  parse query = Ok document ->
  isMutation query = true <-> contains_mutation document.
Proof.
  intros Hp. unfold isMutation, contains_mutation. rewrite Hp.
  apply any_mutation_spec.
Qed.

Lemma mutation_gate_open query document allowMutations :
  parse query = Ok document ->
  passes_mutation_gate allowMutations document ->
  negb (nullish allowMutations false) && isMutation query = false.
Proof.
  intros Hp [-> | Hno]; [done|].
  destruct (isMutation query) eqn:Hm.
  - by apply (isMutation_parsed _ _ Hp) in Hm.
  - apply andb_false_r.
Qed.

Variables (query : jsstring) (variables : option json)
  (endpoint : option jsstring) (headers : option Headers)
  (timeout : option jsnum) (allowMutations : option bool).

Let run (w : World) (t : Trace) : Outcome ToolResult * Trace :=
  handleGraphQLQuery query variables endpoint headers timeout
    allowMutations w t.

Lemma run_invalid w t message :
  parse query = SyntaxError message ->
  run w t =
  (Returned (error_result (lit "Error executing GraphQL query: " ++ message)),
   t).
Proof.
  intros Hp. unfold run, handleGraphQLQuery, try_catch,
    handleGraphQLQuery_try, bind, lift, throwing.
  by rewrite Hp.
Qed.

Lemma run_mutation w t document :
  parse query = Ok document ->
  contains_mutation document ->
  nullish allowMutations false = false ->
  run w t = (Returned (error_result mutation_message), t).
Proof.
  intros Hp Hm Ha. apply (isMutation_parsed _ _ Hp) in Hm.
  unfold run, handleGraphQLQuery, try_catch,
    handleGraphQLQuery_try, bind, lift, throwing.
  by rewrite Hp, Ha, Hm.
Qed.

Lemma run_too_complex w t document :
  parse query = Ok document ->
  passes_mutation_gate allowMutations document ->
  js_gt (calculateQueryComplexity query) MAX_QUERY_COMPLEXITY = true ->
  run w t =
  (Returned (error_result
               (complexity_message (calculateQueryComplexity query))), t).
Proof.
  intros Hp Hm Hc. pose proof (mutation_gate_open _ _ _ Hp Hm) as Hg.
  unfold run, handleGraphQLQuery, try_catch,
    handleGraphQLQuery_try, bind, lift, throwing.
  by rewrite Hp, Hg, Hc.
Qed.

Lemma execute_and_report_run w t processedVariables :
  execute_and_report query processedVariables
    (nullish endpoint DEFAULT_GRAPHQL_ENDPOINT) (nullish headers ∅)
    (nullish timeout DEFAULT_TIMEOUT) w t =
  let t1 := {| requests := requests t;
               clock_reads := Datatypes.S (clock_reads t) |} in
  match decode_variables processedVariables with
  | SyntaxError message =>
      (Threw (VError (OtherError (lit "SyntaxError") message)), t1)
  | Ok decoded =>
      let req := query_request query decoded endpoint headers timeout in
      let t2 := {| requests := requests t ++ [req];
                   clock_reads := Datatypes.S (clock_reads t) |} in
      match axios_post w req with
      | Rejected error => (Threw (VError error), t2)
      | Resolved response =>
          let t3 := {| requests := requests t ++ [req];
                       clock_reads :=
                         Datatypes.S (Datatypes.S (clock_reads t)) |} in
          match resp_errors (data response) with
          | Some errors =>
              (Returned
                 (error_result
                    (lit "GraphQL server returned errors: "
                     ++ join (lit ", ") (map entry_message errors))), t3)
          | None =>
              (Returned
                 (success_result
                    (Date_now w (Datatypes.S (clock_reads t))
                     - Date_now w (clock_reads t))
                    (nullish endpoint DEFAULT_GRAPHQL_ENDPOINT)
                    query response), t3)
          end
      end
  end.
Proof.
  unfold execute_and_report. unfold bind at 1. unfold now at 1.
  unfold bind at 1.
  destruct (decode_variables processedVariables) as [decoded|message] eqn:Hd.
  - match goal with
    | |- context [executeGraphQLQuery ?a] =>
        rewrite (executeGraphQLQuery_decoded a w _ decoded Hd)
    end.
    cbn [exec_endpoint exec_query exec_headers exec_timeout nullish
         requests clock_reads].
    fold (query_request query decoded endpoint headers timeout).
    destruct (axios_post w _) as [response|error]; [|done].
    unfold bind, now, ret. cbn [requests clock_reads].
    by destruct (resp_errors (data response)).
  - match goal with
    | |- context [executeGraphQLQuery ?a] =>
        by rewrite (executeGraphQLQuery_undecoded a w _ message Hd)
    end.
Qed.

Lemma run_after_gates w t document :
  parse query = Ok document ->
  passes_mutation_gate allowMutations document ->
  js_gt (calculateQueryComplexity query) MAX_QUERY_COMPLEXITY = false ->
  run w t = after_gates query variables endpoint headers timeout w t.
Proof.
  intros Hp Hm Hc. pose proof (mutation_gate_open _ _ _ Hp Hm) as Hg.
  unfold run, handleGraphQLQuery, try_catch, handleGraphQLQuery_try,
    after_gates.
  unfold bind at 1. unfold lift at 1. unfold throwing at 1.
  rewrite Hp, Hg, Hc.
  assert (forall pv,
    (let (o, t') :=
       execute_and_report query pv
         (nullish endpoint DEFAULT_GRAPHQL_ENDPOINT) (nullish headers ∅)
         (nullish timeout DEFAULT_TIMEOUT) w t in
     match o with
     | Returned a => (Returned a, t')
     | Threw e =>
         (let* errorMessage := lift (sanitizeErrorMessage e) in
          ret (error_result (lit "Error executing GraphQL query: "
                             ++ errorMessage))) w t'
     end) =
    let t1 := {| requests := requests t;
                 clock_reads := Datatypes.S (clock_reads t) |} in
    match decode_variables pv with
    | SyntaxError message =>
        (Returned (error_result (lit "Error executing GraphQL query: "
                                 ++ message)), t1)
    | Ok processedVariables =>
        let req := query_request query processedVariables endpoint
                     headers timeout in
        let t2 := {| requests := requests t ++ [req];
                     clock_reads := Datatypes.S (clock_reads t) |} in
        match axios_post w req with
        | Rejected error =>
            (match sanitizeErrorMessage (VError error) with
             | Returned errorMessage =>
                 Returned (error_result
                             (lit "Error executing GraphQL query: "
                              ++ errorMessage))
             | Threw e => Threw e
             end, t2)
        | Resolved response =>
            let t3 := {| requests := requests t ++ [req];
                         clock_reads :=
                           Datatypes.S (Datatypes.S (clock_reads t)) |} in
            match resp_errors (data response) with
            | Some errors =>
                (Returned
                   (error_result
                      (lit "GraphQL server returned errors: "
                       ++ join (lit ", ") (map entry_message errors))), t3)
            | None =>
                (Returned
                   (success_result
                      (Date_now w (Datatypes.S (clock_reads t))
                       - Date_now w (clock_reads t))
                      (nullish endpoint DEFAULT_GRAPHQL_ENDPOINT)
                      query response), t3)
            end
        end
    end) as Hexec.
  { intros pv. rewrite execute_and_report_run. cbv zeta.
    destruct (decode_variables pv) as [decoded|message]; [|done].
    destruct (axios_post w _) as [response|error].
    - by destruct (resp_errors (data response)).
    - unfold bind, lift, ret.
      by destruct (sanitizeErrorMessage (VError error)). }
  unfold decode_variables at 1.
  destruct variables as [[| | |s| |]|]; try apply Hexec.
  destruct (JSON_parse s) as [v|message]; [apply Hexec|done].
Qed.

Lemma sanitizeErrorMessage_error e :
  exists s, sanitizeErrorMessage (VError e) = Returned s.
Proof. destruct e as [m [r|] [|]|n m]; cbn; eauto. Qed.

Lemma after_gates_returns w t :
  exists r t',
    after_gates query variables endpoint headers timeout w t
    = (Returned r, t').
Proof.
  unfold after_gates.
  destruct (decode_variables variables) as [decoded|?]; [|eauto].
  cbv zeta. destruct (decode_variables decoded) as [pv|?]; [|eauto].
  destruct (axios_post w _) as [response|error].
  - destruct (resp_errors (data response)); eauto.
  - destruct (sanitizeErrorMessage_error error) as [s ->]. eauto.
Qed.

Lemma run_returns w t : exists r t', run w t = (Returned r, t').
Proof.
  destruct (parse query) as [document|message] eqn:Hp.
  2: { rewrite (run_invalid w t message Hp). eauto. }
  destruct (nullish allowMutations false) eqn:Ha.
  - assert (passes_mutation_gate allowMutations document) as Hm.
    { left. by destruct allowMutations as [[|]|]. }
    destruct (js_gt (calculateQueryComplexity query) MAX_QUERY_COMPLEXITY)
      eqn:Hc.
    + rewrite (run_too_complex w t document Hp Hm Hc). eauto.
    + rewrite (run_after_gates w t document Hp Hm Hc).
      apply after_gates_returns.
  - destruct (isMutation query) eqn:Hi.
    + apply (isMutation_parsed _ _ Hp) in Hi.
      rewrite (run_mutation w t document Hp Hi Ha). eauto.
    + assert (passes_mutation_gate allowMutations document) as Hm.
      { right. intros Hcm. apply (isMutation_parsed _ _ Hp) in Hcm.
        congruence. }
      destruct (js_gt (calculateQueryComplexity query) MAX_QUERY_COMPLEXITY)
        eqn:Hc.
      * rewrite (run_too_complex w t document Hp Hm Hc). eauto.
      * rewrite (run_after_gates w t document Hp Hm Hc).
        apply after_gates_returns.
Qed.

End Handler.

(** C1: when the parsed document has a top-level mutation operation and
    [allowMutations] is false or absent, the handler returns the mutation
    refusal with [isError = true] and issues no HTTP request. *)
Theorem mutation_gate_refuses
    {ext : Externals} {cfg : ConfigModule}
    (query : jsstring) (variables : option json) (endpoint : option jsstring)
    (headers : option Headers) (timeout : option jsnum)
    (allowMutations : option bool) (w : World) (document : DocumentNode) :
  parse query = Ok document ->
  contains_mutation document ->
  allowMutations = None \/ allowMutations = Some false ->
  let run := handleGraphQLQuery query variables endpoint headers timeout
               allowMutations w start in
  run.1 = Returned
            {| content :=
                 [{| type := lit "text";
                     text := lit "Mutation operations are not allowed unless explicitly enabled with allowMutations=true" |}];
               isError := Some true |}
  /\ requests run.2 = [].
Proof.
  intros Hp Hm Ha run. subst run.
  rewrite (run_mutation query variables endpoint headers timeout
             allowMutations w start document Hp Hm).
  - done.
  - by destruct Ha as [-> | ->].
Qed.

Lemma mutation_gate_refuses_witness :
  let run := @handleGraphQLQuery Sample.externals Sample.strict
               (lit "mutation { a b }") None None None None None
               Sample.failing_endpoint start in
  run.1 = Returned
            {| content :=
                 [{| type := lit "text";
                     text := lit "Mutation operations are not allowed unless explicitly enabled with allowMutations=true" |}];
               isError := Some true |}
  /\ requests run.2 = [].
Proof.
  apply (@mutation_gate_refuses Sample.externals Sample.strict
           (lit "mutation { a b }") None None None None None
           Sample.failing_endpoint Sample.two_field_mutation).
  - reflexivity.
  - exists None, [], [], [Sample.leaf "a"; Sample.leaf "b"]. left. reflexivity.
  - left. reflexivity.
Defined.

(** C5: on a query that does not parse, the handler returns
    [isError = true] with "Error executing GraphQL query: " followed by the
    sanitized diagnostic of the parser, and issues no HTTP request; and
    whatever the arguments and the world, a call of the handler returns a
    result and throws nothing. *)
Theorem syntax_error_reported
    {ext : Externals} {cfg : ConfigModule}
    (query : jsstring) (variables : option json) (endpoint : option jsstring)
    (headers : option Headers) (timeout : option jsnum)
    (allowMutations : option bool) (w : World) :
  let run := handleGraphQLQuery query variables endpoint headers timeout
               allowMutations w in
  (forall message,
      parse query = SyntaxError message ->
      exists diagnostic,
        sanitizeErrorMessage (VError (OtherError (lit "GraphQLError") message))
        = Returned diagnostic
        /\ diagnostic = message
        /\ (run start).1 =
           Returned
             {| content :=
                  [{| type := lit "text";
                      text := lit "Error executing GraphQL query: "
                              ++ diagnostic |}];
                isError := Some true |}
        /\ requests (run start).2 = [])
  /\ (forall t, exists result t', run t = (Returned result, t')).
Proof.
  intros run. subst run. split.
  - intros message Hp. exists message.
    rewrite (run_invalid query variables endpoint headers timeout
               allowMutations w start message Hp).
    done.
  - intros t. apply run_returns.
Qed.

Lemma syntax_error_reported_witness :
  let run := @handleGraphQLQuery Sample.externals Sample.strict
               (lit "{ a") None None None None None
               Sample.failing_endpoint start in
  run.1 = Returned
            {| content :=
                 [{| type := lit "text";
                     text := lit "Error executing GraphQL query: Syntax Error: Unexpected character." |}];
               isError := Some true |}
  /\ requests run.2 = [].
Proof.
  destruct (@syntax_error_reported Sample.externals Sample.strict
              (lit "{ a") None None None None None Sample.failing_endpoint)
    as [Hinvalid _].
  destruct (Hinvalid (lit "Syntax Error: Unexpected character.") eq_refl)
    as (diagnostic & _ & -> & Hrun & Hreq).
  split; [exact Hrun|exact Hreq].
Defined.

(** C6, as stated, fails: with ceiling 1 and mutations not allowed, the
    query [mutation { a b }] parses and has two fields, and the handler
    answers with the mutation refusal, not with the complexity message. *)
Lemma over_ceiling_mutation_gets_mutation_message :
  let run := @handleGraphQLQuery Sample.externals Sample.strict
               (lit "mutation { a b }") None None None None None
               Sample.failing_endpoint start in
  @parse Sample.externals (lit "mutation { a b }")
  = Ok Sample.two_field_mutation
  /\ count_fields Sample.two_field_mutation = 2%nat
  /\ @MAX_QUERY_COMPLEXITY Sample.strict = JInt 1
  /\ run.1 = Returned (error_result mutation_message)
  /\ run.1 <> Returned
                {| content :=
                     [{| type := lit "text";
                         text := lit "Query complexity (2) exceeds maximum allowed (1)" |}];
                   isError := Some true |}.
Proof.
  cbv zeta. repeat split. intros Hbad.
  assert (@handleGraphQLQuery Sample.externals Sample.strict
            (lit "mutation { a b }") None None None None None
            Sample.failing_endpoint start
          = (Returned (error_result mutation_message), start)) as Hrun
    by reflexivity.
  rewrite Hrun in Hbad. discriminate Hbad.
Qed.

(** C6, amended: for a query that parses and that the mutation gate lets
    through (mutations allowed, or no mutation operation in the document),
    a field count above the ceiling gives [isError = true] with
    "Query complexity (<n>) exceeds maximum allowed (<max>)" and no HTTP
    request; a field count equal to the ceiling is not stopped here: the
    handler goes on to decode the variables and issue the request. *)
Theorem complexity_gate_refuses
    {ext : Externals} {cfg : ConfigModule}
    (query : jsstring) (variables : option json) (endpoint : option jsstring)
    (headers : option Headers) (timeout : option jsnum)
    (allowMutations : option bool) (w : World) (document : DocumentNode) :
  parse query = Ok document ->
  passes_mutation_gate allowMutations document ->
  let n := JInt (Z.of_nat (count_fields document)) in
  let run := handleGraphQLQuery query variables endpoint headers timeout
               allowMutations w start in
  (js_gt n MAX_QUERY_COMPLEXITY = true ->
   run.1 = Returned
             {| content :=
                  [{| type := lit "text";
                      text := lit "Query complexity (" ++ Number_toString n
                              ++ lit ") exceeds maximum allowed ("
                              ++ Number_toString MAX_QUERY_COMPLEXITY
                              ++ lit ")" |}];
                isError := Some true |}
   /\ requests run.2 = [])
  /\ (n = MAX_QUERY_COMPLEXITY ->
      run = after_gates query variables endpoint headers timeout w start
      /\ forall decoded processedVariables,
          decode_variables variables = Ok decoded ->
          decode_variables decoded = Ok processedVariables ->
          requests run.2
          = [query_request query processedVariables endpoint headers timeout]).
Proof.
  intros Hp Hm n run.
  pose proof (calculateQueryComplexity_parsed query document Hp) as Hn.
  fold n in Hn. subst run. split.
  - intros Hgt. rewrite <- Hn in Hgt.
    rewrite (run_too_complex query variables endpoint headers timeout
               allowMutations w start document Hp Hm Hgt).
    unfold complexity_message. by rewrite Hn.
  - intros Heq.
    assert (js_gt (calculateQueryComplexity query) MAX_QUERY_COMPLEXITY = false)
      as Hle.
    { rewrite Hn, <- Heq. unfold n, js_gt. apply Z.ltb_irrefl. }
    rewrite (run_after_gates query variables endpoint headers timeout
               allowMutations w start document Hp Hm Hle).
    split; [done|]. intros decoded pv Hd1 Hd2.
    unfold after_gates. rewrite Hd1. cbv zeta. rewrite Hd2.
    destruct (axios_post w _) as [response|error]; [|done].
    by destruct (resp_errors (data response)).
Qed.

Lemma complexity_gate_refuses_witness :
  let over := @handleGraphQLQuery Sample.externals Sample.strict
                (lit "{ x: a { b } }") None None None None None
                Sample.failing_endpoint start in
  let equal := @handleGraphQLQuery Sample.externals Sample.lenient
                 (lit "{ x: a { b } }") None None None None None
                 Sample.failing_endpoint start in
  (over.1 = Returned
              {| content :=
                   [{| type := lit "text";
                       text := lit "Query complexity (2) exceeds maximum allowed (1)" |}];
                 isError := Some true |}
   /\ requests over.2 = [])
  /\ length (requests equal.2) = 1%nat.
Proof.
  assert (passes_mutation_gate None Sample.two_field_query) as Hgate.
  { right.
    intros (name & vars & dirs & sels & [Hin | []]). discriminate Hin. }
  destruct (@complexity_gate_refuses Sample.externals Sample.strict
              (lit "{ x: a { b } }") None None None None None
              Sample.failing_endpoint Sample.two_field_query eq_refl Hgate)
    as [Hover _].
  destruct (@complexity_gate_refuses Sample.externals Sample.lenient
              (lit "{ x: a { b } }") None None None None None
              Sample.failing_endpoint Sample.two_field_query eq_refl Hgate)
    as [_ Hequal].
  split.
  - exact (Hover eq_refl).
  - destruct (Hequal eq_refl) as [_ Hreq].
    rewrite (Hreq None None eq_refl eq_refl). reflexivity.
Defined.

(** [join] with ", " puts the separator before each message but the
    first. *)
Lemma join_comma_separated (messages : list jsstring) :
  join (lit ", ") messages = comma_separated messages.
Proof.
  destruct messages as [|first others]; [done|].
  cbn [comma_separated]. revert first.
  induction others as [|m others IH]; intros first.
  - cbn. by rewrite app_nil_r.
  - change (join (lit ", ") (first :: m :: others))
      with (first ++ lit ", " ++ join (lit ", ") (m :: others)).
    rewrite IH. cbn [map concat]. by rewrite <- !app_assoc.
Qed.

(** C8: when the call passes the gates, the variables decode and the
    endpoint answers with a response whose body has an [errors] array, the
    handler returns [isError = true] with "GraphQL server returned errors: "
    followed by all the messages, a comma and a space between one and the
    next; for the single error "field X not found" the text is exactly
    "GraphQL server returned errors: field X not found". *)
Theorem graphql_errors_reported
    {ext : Externals} {cfg : ConfigModule}
    (query : jsstring) (variables : option json) (endpoint : option jsstring)
    (headers : option Headers) (timeout : option jsnum)
    (allowMutations : option bool) (w : World) (document : DocumentNode)
    (decoded processedVariables : option json)
    (response : AxiosResponse) (errors : list GraphQLErrorEntry) :
  parse query = Ok document ->
  passes_mutation_gate allowMutations document ->
  js_gt (JInt (Z.of_nat (count_fields document))) MAX_QUERY_COMPLEXITY = false ->
  decode_variables variables = Ok decoded ->
  decode_variables decoded = Ok processedVariables ->
  axios_post w (query_request query processedVariables endpoint headers timeout)
  = Resolved response ->
  resp_errors (data response) = Some errors ->
  let run := handleGraphQLQuery query variables endpoint headers timeout
               allowMutations w start in
  let answer (errorMessages : jsstring) :=
    Returned
      {| content :=
           [{| type := lit "text";
               text := lit "GraphQL server returned errors: "
                       ++ errorMessages |}];
         isError := Some true |} in
  run.1 = answer (comma_separated (map entry_message errors))
  /\ (errors = [] -> run.1 = answer [])
  /\ (forall e, errors = [e] -> run.1 = answer (entry_message e))
  /\ (forall e1 e2 rest,
        errors = e1 :: e2 :: rest ->
        run.1 = answer (entry_message e1 ++ lit ", "
                        ++ comma_separated (map entry_message (e2 :: rest))))
  /\ (errors = [{| entry_message := lit "field X not found" |}] ->
      run.1 = Returned
                {| content :=
                     [{| type := lit "text";
                         text := lit "GraphQL server returned errors: field X not found" |}];
                   isError := Some true |}).
Proof.
  intros Hp Hm Hc Hd1 Hd2 Hpost Herr run answer.
  rewrite <- (calculateQueryComplexity_parsed query document Hp) in Hc.
  assert (run.1 = answer (comma_separated (map entry_message errors)))
    as Hrun.
  { subst run answer.
    rewrite (run_after_gates query variables endpoint headers timeout
               allowMutations w start document Hp Hm Hc).
    unfold after_gates. rewrite Hd1. cbv zeta. rewrite Hd2, Hpost, Herr.
    cbn [fst]. by rewrite join_comma_separated. }
  split; [exact Hrun|]. rewrite Hrun. repeat split.
  - by intros ->.
  - intros e ->. subst answer. cbn. by rewrite app_nil_r.
  - intros e1 e2 rest ->. subst answer. cbn [map comma_separated concat].
    by rewrite <- !app_assoc.
  - by intros ->.
Qed.

Lemma graphql_errors_reported_witness :
  let one := @handleGraphQLQuery Sample.externals Sample.strict
               (lit "{ __typename }") (Some (JString (lit "{}"))) None None
               None None Sample.failing_endpoint start in
  let two := @handleGraphQLQuery Sample.externals Sample.strict
               (lit "{ __typename }") None None None None None
               Sample.two_errors_endpoint start in
  one.1 = Returned
            {| content :=
                 [{| type := lit "text";
                     text := lit "GraphQL server returned errors: field X not found" |}];
               isError := Some true |}
  /\ two.1 = Returned
               {| content :=
                    [{| type := lit "text";
                        text := lit "GraphQL server returned errors: field X not found, field Y not found" |}];
                  isError := Some true |}.
Proof.
  assert (passes_mutation_gate None Sample.typename_query) as Hgate.
  { right.
    intros (name & vars & dirs & sels & [Hin | []]). discriminate Hin. }
  destruct (@graphql_errors_reported Sample.externals Sample.strict
              (lit "{ __typename }") (Some (JString (lit "{}"))) None None
              None None Sample.failing_endpoint Sample.typename_query
              (Some (JObject [])) (Some (JObject []))
              Sample.field_X_response
              [{| entry_message := lit "field X not found" |}]
              eq_refl Hgate eq_refl eq_refl eq_refl eq_refl eq_refl)
    as (_ & _ & _ & _ & Hexact).
  destruct (@graphql_errors_reported Sample.externals Sample.strict
              (lit "{ __typename }") None None None None None
              Sample.two_errors_endpoint Sample.typename_query None None
              {| status := 200;
                 data := {| resp_data := None;
                            resp_errors :=
                              Some [{| entry_message := lit "field X not found" |};
                                    {| entry_message := lit "field Y not found" |}]
                         |} |}
              [{| entry_message := lit "field X not found" |};
               {| entry_message := lit "field Y not found" |}]
              eq_refl Hgate eq_refl eq_refl eq_refl eq_refl eq_refl)
    as (_ & _ & _ & Htwo & _).
  split; [exact (Hexact eq_refl)|].
  exact (Htwo _ _ [] eq_refl).
Defined.

(** * Further properties of the code *)

(** ** formatGraphQLQuery *)

Section FormattingMore.

Lemma visible_replace_ws_runs b s : visible (replace_ws_runs b s) = visible s.
Proof.
  unfold visible. revert b; induction s as [|c s IH]; intros b; [done|].
  cbn [replace_ws_runs]. destruct (is_space c) eqn:Hc.
  - destruct b; cbn [List.filter]; rewrite ?is_space_SP, Hc; cbn [negb];
      apply IH.
  - cbn [List.filter]. rewrite Hc. cbn [negb]. f_equal. apply IH.
Qed.

Lemma visible_trimStart s : visible (trimStart s) = visible s.
Proof.
  unfold visible. induction s as [|c s IH]; [done|].
  cbn [trimStart]. destruct (is_space c) eqn:Hc; [|done].
  cbn [List.filter]. by rewrite Hc.
Qed.

Lemma visible_trimEnd s : visible (trimEnd s) = visible s.
Proof.
  unfold visible. induction s as [|c s IH]; [done|].
  cbn [trimEnd]. destruct (trimEnd s) as [|d t].
  - cbn [List.filter] in *. rewrite <- IH.
    by destruct (is_space c) eqn:Hc; cbn [List.filter]; rewrite ?Hc.
  - cbn [List.filter] in *. by rewrite IH.
Qed.

Lemma replace_ws_runs_length b s :
  (length (replace_ws_runs b s) <= length s)%nat.
Proof.
  revert b; induction s as [|c s IH]; intros b; [done|].
  cbn [replace_ws_runs]. destruct (is_space c).
  - destruct b; cbn [length]; [specialize (IH true)|specialize (IH true)]; lia.
  - cbn [length]. specialize (IH false). lia.
Qed.

Lemma trimStart_length s : (length (trimStart s) <= length s)%nat.
Proof.
  induction s as [|c s IH]; [done|].
  cbn [trimStart]. destruct (is_space c); cbn [length]; lia.
Qed.

Lemma trimEnd_length s : (length (trimEnd s) <= length s)%nat.
Proof.
  induction s as [|c s IH]; [done|].
  cbn [trimEnd]. destruct (trimEnd s); [destruct (is_space c)|];
    cbn [length] in *; lia.
Qed.

Lemma compact_spaces b s c :
  compact b s = true -> In c s -> is_space c = true -> c = SP.
Proof.
  revert b; induction s as [|d s IH]; intros b Hs Hin Hc; [done|].
  cbn [compact] in Hs. destruct Hin as [-> | Hin].
  - rewrite Hc in Hs. apply andb_prop in Hs as [Hs _].
    apply andb_prop in Hs as [_ Hs]. by apply N.eqb_eq in Hs.
  - destruct (is_space d).
    + apply andb_prop in Hs as [_ Hs]. by apply (IH true).
    + by apply (IH false).
Qed.

Lemma visible_nil_all_spaces s :
  visible s = [] <-> forallb is_space s = true.
Proof.
  unfold visible. induction s as [|c s IH]; [done|].
  cbn [List.filter forallb]. destruct (is_space c); cbn [negb andb].
  - exact IH.
  - split; discriminate.
Qed.

Lemma visible_formatGraphQLQuery q : visible (formatGraphQLQuery q) = visible q.
Proof.
  unfold formatGraphQLQuery, trim.
  by rewrite visible_trimEnd, visible_trimStart, visible_replace_ws_runs.
Qed.

End FormattingMore.

(** X1: [formatGraphQLQuery] changes white space only: the code units of
    the query that are not white space come out unchanged and in order. *)
Theorem formatGraphQLQuery_keeps_visible (q : jsstring) :
  visible (formatGraphQLQuery q) = visible q.
Proof. apply visible_formatGraphQLQuery. Qed.

(** X2: the result of [formatGraphQLQuery] is never longer than the query,
    and the only white-space code unit left in it is U+0020: tabs, line
    breaks and the other Unicode spaces are gone. *)
Theorem formatGraphQLQuery_only_plain_spaces (q : jsstring) :
  (length (formatGraphQLQuery q) <= length q)%nat
  /\ forallb (fun c => negb (is_space c) || (c =? 32))
       (formatGraphQLQuery q) = true.
Proof.
  split.
  - unfold formatGraphQLQuery, trim.
    pose proof (trimEnd_length (trimStart (replace_ws_runs false q))).
    pose proof (trimStart_length (replace_ws_runs false q)).
    pose proof (replace_ws_runs_length false q). lia.
  - apply forallb_forall. intros c Hin.
    destruct (is_space c) eqn:Hc; [|done]. cbn [negb orb].
    apply N.eqb_eq.
    exact (compact_spaces false _ c (formatGraphQLQuery_compact q) Hin Hc).
Qed.

(** X3: [formatGraphQLQuery] gives the empty string exactly on the queries
    made of white space only (the empty query among them). *)
Theorem formatGraphQLQuery_empty_iff (q : jsstring) :
  formatGraphQLQuery q = [] <-> forallb is_space q = true.
Proof.
  rewrite <- visible_nil_all_spaces, <- (visible_formatGraphQLQuery q).
  split; [by intros ->|].
  intros Hv. destruct (formatGraphQLQuery_no_outer_spaces q) as [Hhead _].
  destruct (formatGraphQLQuery q) as [|c o]; [done|].
  specialize (Hhead c eq_refl). unfold visible in Hv.
  cbn [List.filter] in Hv. by rewrite Hhead in Hv.
Qed.

Lemma formatGraphQLQuery_empty_iff_witness :
  formatGraphQLQuery [32; 9; 10; 12288] = [].
Proof.
  apply (proj2 (formatGraphQLQuery_empty_iff [32; 9; 10; 12288])).
  reflexivity.
Defined.

(** ** isMutation and the complexity sentinel *)

(** X4: [isMutation] answers [true] exactly when the query parses and its
    document has a top-level mutation operation; on a query that does not
    parse it answers [false] rather than failing. *)
Theorem isMutation_iff {ext : Externals} (query : jsstring) :
  (isMutation query = true <->
   exists document, parse query = Ok document /\ contains_mutation document)
  /\ (forall message, parse query = SyntaxError message ->
                      isMutation query = false).
Proof.
  split.
  - destruct (parse query) as [document|message] eqn:Hp.
    + rewrite (isMutation_parsed query document Hp). split.
      * intros Hm. by exists document.
      * by intros (d & [= <-] & Hm).
    + unfold isMutation. rewrite Hp. split; [discriminate|].
      by intros (d & Hd & _).
  - intros message Hp. unfold isMutation. by rewrite Hp.
Qed.

Lemma isMutation_iff_witness :
  @isMutation Sample.externals (lit "mutation { a b }") = true
  /\ @isMutation Sample.externals (lit "mutation {") = false.
Proof.
  destruct (@isMutation_iff Sample.externals (lit "mutation { a b }"))
    as [Hiff _].
  destruct (@isMutation_iff Sample.externals (lit "mutation {"))
    as [_ Hopen].
  split.
  - apply Hiff. exists Sample.two_field_mutation. split; [reflexivity|].
    exists None, [], [], [Sample.leaf "a"; Sample.leaf "b"]. left. reflexivity.
  - exact (Hopen (lit "Syntax Error: Unexpected character.") eq_refl).
Defined.

(** Addition of doubles, on the integers it is used with. *)
Example round_to_double_samples :
  map round_to_double
    [5; 0; -7; 9007199254740991; 9007199254740992; 9007199254740993;
     9007199254740994; 9007199254740995; 9007199254740997;
     18014398509481985; 18014398509481986; 18014398509481987;
     18014398509481990; 1152921504606847104; 1152921504606847105;
     1152921504606847360; 1000000000000000000001;
     123456789012345678901234567890;
     -9007199254740993; -9007199254740995]%Z
  = [5; 0; -7; 9007199254740991; 9007199254740992; 9007199254740992;
     9007199254740994; 9007199254740996; 9007199254740996;
     18014398509481984; 18014398509481984; 18014398509481988;
     18014398509481992; 1152921504606846976; 1152921504606847232;
     1152921504606847488; 1000000000000000000000;
     123456789012345677877719597056;
     -9007199254740992; -9007199254740996]%Z.
Proof. vm_compute. reflexivity. Qed.

Lemma round_to_double_exact z :
  (Z.abs z <= 2 ^ 53)%Z -> round_to_double z = z.
Proof.
  intros Hz. unfold round_to_double.
  by rewrite (proj2 (Z.leb_le _ _) Hz).
Qed.

(** X5: the value [calculateQueryComplexity] gives to a query that does
    not parse, the ceiling plus one, is above the ceiling when the ceiling
    is an integer from -2^53 to 2^53 - 1.  It is not at 2^53, where the
    sum rounds back to the ceiling, nor when the ceiling is [NaN]: then
    the complexity test lets the value through. *)
Theorem unparseable_complexity_sentinel
    {ext : Externals} {cfg : ConfigModule} (query message : jsstring) :
  parse query = SyntaxError message ->
  (forall ceiling,
      MAX_QUERY_COMPLEXITY = JInt ceiling ->
      (- 2 ^ 53 <= ceiling < 2 ^ 53)%Z ->
      calculateQueryComplexity query = JInt (ceiling + 1)
      /\ js_gt (calculateQueryComplexity query) MAX_QUERY_COMPLEXITY = true)
  /\ (MAX_QUERY_COMPLEXITY = JInt (2 ^ 53) ->
      calculateQueryComplexity query = JInt (2 ^ 53)
      /\ js_gt (calculateQueryComplexity query) MAX_QUERY_COMPLEXITY = false)
  /\ (MAX_QUERY_COMPLEXITY = JNaN ->
      js_gt (calculateQueryComplexity query) MAX_QUERY_COMPLEXITY = false).
Proof.
  intros Hp. unfold calculateQueryComplexity. rewrite Hp.
  assert ((2 ^ 53)%Z = 9007199254740992%Z) as Hpow by reflexivity.
  repeat split.
  - rewrite H. cbn [js_add]. rewrite round_to_double_exact; [done|].
    rewrite Hpow in *. lia.
  - rewrite H. cbn [js_add js_gt].
    rewrite round_to_double_exact by (rewrite Hpow in *; lia).
    apply Z.ltb_lt. lia.
  - by rewrite H.
  - by rewrite H.
  - by intros ->.
Qed.

Lemma unparseable_complexity_sentinel_witness :
  js_gt (@calculateQueryComplexity Sample.externals Sample.strict (lit "{ a"))
        (@MAX_QUERY_COMPLEXITY Sample.strict) = true
  /\ js_gt (@calculateQueryComplexity Sample.externals Sample.unconfigured
              (lit "{ a"))
           (@MAX_QUERY_COMPLEXITY Sample.unconfigured) = false.
Proof.
  destruct (@unparseable_complexity_sentinel Sample.externals Sample.strict
              (lit "{ a") (lit "Syntax Error: Unexpected character.") eq_refl)
    as (Hnumber & _ & _).
  destruct (@unparseable_complexity_sentinel Sample.externals
              Sample.unconfigured
              (lit "{ a") (lit "Syntax Error: Unexpected character.") eq_refl)
    as (_ & _ & Hnan).
  split; [|exact (Hnan eq_refl)].
  apply (Hnumber 1%Z eq_refl). split; [discriminate|reflexivity].
Defined.

(** ** executeGraphQLQuery *)

(** X6: [executeGraphQLQuery] either fails on its variables before anything
    is sent (a string that [JSON.parse] rejects: the [SyntaxError] is
    thrown and no request is issued), or issues exactly one request, to the
    given endpoint or else the configured one, with the given timeout or
    else the configured one, and then settles as [axios.post] did: the
    response is returned as it is and a rejection is thrown on unchanged. *)
Theorem executeGraphQLQuery_outcomes
    {ext : Externals} {cfg : ConfigModule}
    (a : ExecuteArgs) (w : World) (t : Trace) :
  (forall message,
      decode_variables (exec_variables a) = SyntaxError message ->
      executeGraphQLQuery a w t
      = (Threw (VError (OtherError (lit "SyntaxError") message)), t))
  /\ (forall processedVariables,
         decode_variables (exec_variables a) = Ok processedVariables ->
         let req :=
           {| url := nullish (exec_endpoint a) DEFAULT_GRAPHQL_ENDPOINT;
              body_query := exec_query a;
              body_variables := processedVariables;
              request_headers :=
                request_headers_of (nullish (exec_headers a) ∅);
              request_timeout := nullish (exec_timeout a) DEFAULT_TIMEOUT |} in
         requests (executeGraphQLQuery a w t).2 = requests t ++ [req]
         /\ (forall response,
               axios_post w req = Resolved response ->
               (executeGraphQLQuery a w t).1 = Returned response)
         /\ (forall error,
               axios_post w req = Rejected error ->
               (executeGraphQLQuery a w t).1 = Threw (VError error))).
Proof.
  split.
  - intros message. apply executeGraphQLQuery_undecoded.
  - intros pv Hd req.
    rewrite (executeGraphQLQuery_decoded a w t pv Hd).
    cbv zeta. fold req. cbn [fst snd requests].
    repeat split.
    + by intros response ->.
    + by intros error ->.
Qed.

Lemma executeGraphQLQuery_outcomes_witness :
  (@executeGraphQLQuery Sample.externals Sample.strict
     {| exec_endpoint := None; exec_query := lit "{ __typename }";
        exec_variables := Some (JString (lit "{ not json"));
        exec_headers := None; exec_timeout := None |}
     Sample.failing_endpoint start)
  = (Threw (VError (OtherError (lit "SyntaxError")
                      (lit "Unexpected token in JSON"))), start)
  /\ (@executeGraphQLQuery Sample.externals Sample.strict
        (Sample.bare_query None) Sample.broken_endpoint start).1
     = Threw (VError
                (AxiosError (lit "Request failed with status code 500")
                   (Some {| status := 500;
                            data := {| resp_data := None;
                                       resp_errors := None |} |})
                   true)).
Proof.
  split.
  - apply (proj1 (@executeGraphQLQuery_outcomes Sample.externals Sample.strict
                    _ Sample.failing_endpoint start)).
    reflexivity.
  - destruct (proj2 (@executeGraphQLQuery_outcomes Sample.externals
                       Sample.strict (Sample.bare_query None)
                       Sample.broken_endpoint start) None eq_refl)
      as (_ & _ & Hrejected).
    apply Hrejected. reflexivity.
Defined.

(** ** The query handler, past its gates *)

Section HandlerMore.
Context {ext : Externals} {cfg : ConfigModule}.
Variables (query : jsstring) (variables : option json)
  (endpoint : option jsstring) (headers : option Headers)
  (timeout : option jsnum).

Lemma after_gates_requests w t :
  let run := after_gates query variables endpoint headers timeout w t in
  requests run.2 = requests t
  \/ exists processedVariables,
       requests run.2
       = requests t
         ++ [query_request query processedVariables endpoint headers timeout].
Proof.
  unfold after_gates.
  destruct (decode_variables variables) as [decoded|?]; [|by left].
  cbv zeta. destruct (decode_variables decoded) as [pv|?]; [|by left].
  right. exists pv.
  destruct (axios_post w _) as [response|error]; [|done].
  by destruct (resp_errors (data response)).
Qed.

Lemma after_gates_sent w t decoded processedVariables :
  decode_variables variables = Ok decoded ->
  decode_variables decoded = Ok processedVariables ->
  let req := query_request query processedVariables endpoint headers timeout in
  after_gates query variables endpoint headers timeout w t =
  match axios_post w req with
  | Rejected error =>
      (match sanitizeErrorMessage (VError error) with
       | Returned errorMessage =>
           Returned (error_result (lit "Error executing GraphQL query: "
                                   ++ errorMessage))
       | Threw e => Threw e
       end,
       {| requests := requests t ++ [req];
          clock_reads := Datatypes.S (clock_reads t) |})
  | Resolved response =>
      (Returned
         match resp_errors (data response) with
         | Some errors =>
             error_result (lit "GraphQL server returned errors: "
                           ++ join (lit ", ") (map entry_message errors))
         | None =>
             success_result
               (Date_now w (Datatypes.S (clock_reads t))
                - Date_now w (clock_reads t))
               (nullish endpoint DEFAULT_GRAPHQL_ENDPOINT) query response
         end,
       {| requests := requests t ++ [req];
          clock_reads := Datatypes.S (Datatypes.S (clock_reads t)) |})
  end.
Proof.
  intros Hd1 Hd2 req. unfold after_gates. rewrite Hd1. cbv zeta.
  rewrite Hd2. fold req.
  destruct (axios_post w req) as [response|error]; [|done].
  by destruct (resp_errors (data response)).
Qed.

End HandlerMore.

(** X7: when the call passes the gates and its variables are a string that
    [JSON.parse] rejects, the handler answers "Failed to parse variables as
    JSON: <message>" with [isError = true]; the clock is not read and no
    request is issued. *)
Theorem malformed_variables_reported
    {ext : Externals} {cfg : ConfigModule}
    (query : jsstring) (s : jsstring) (endpoint : option jsstring)
    (headers : option Headers) (timeout : option jsnum)
    (allowMutations : option bool) (w : World) (t : Trace)
    (document : DocumentNode) (message : jsstring) :
  parse query = Ok document ->
  passes_mutation_gate allowMutations document ->
  js_gt (JInt (Z.of_nat (count_fields document))) MAX_QUERY_COMPLEXITY = false ->
  JSON_parse s = SyntaxError message ->
  handleGraphQLQuery query (Some (JString s)) endpoint headers timeout
    allowMutations w t
  = (Returned
       {| content :=
            [{| type := lit "text";
                text := lit "Failed to parse variables as JSON: " ++ message |}];
          isError := Some true |}, t).
Proof.
  intros Hp Hm Hc Hs.
  rewrite <- (calculateQueryComplexity_parsed query document Hp) in Hc.
  rewrite (run_after_gates query (Some (JString s)) endpoint headers timeout
             allowMutations w t document Hp Hm Hc).
  unfold after_gates, decode_variables. by rewrite Hs.
Qed.

Lemma malformed_variables_reported_witness :
  @handleGraphQLQuery Sample.externals Sample.strict (lit "{ __typename }")
    (Some (JString (lit "{ not json"))) None None None None
    Sample.failing_endpoint start
  = (Returned
       {| content :=
            [{| type := lit "text";
                text := lit "Failed to parse variables as JSON: Unexpected token in JSON" |}];
          isError := Some true |}, start).
Proof.
  apply (@malformed_variables_reported Sample.externals Sample.strict
           (lit "{ __typename }") (lit "{ not json") None None None None
           Sample.failing_endpoint start Sample.typename_query
           (lit "Unexpected token in JSON")).
  - reflexivity.
  - right. intros (name & vars & dirs & sels & [Hin | []]). discriminate Hin.
  - reflexivity.
  - reflexivity.
Defined.

(** X8: when the request is issued and [axios.post] rejects with an
    HTTP-client error, the handler answers [isError = true] with
    "Error executing GraphQL query: " followed by "Server responded with
    status <code>: <message>" if the error carries a response, by
    "No response received: <message>" if it carries only the request; the
    request was issued once and the clock read once. *)
Theorem transport_failure_reported
    {ext : Externals} {cfg : ConfigModule}
    (query : jsstring) (variables : option json) (endpoint : option jsstring)
    (headers : option Headers) (timeout : option jsnum)
    (allowMutations : option bool) (w : World) (document : DocumentNode)
    (decoded processedVariables : option json)
    (message : jsstring) (response : option AxiosResponse) :
  parse query = Ok document ->
  passes_mutation_gate allowMutations document ->
  js_gt (JInt (Z.of_nat (count_fields document))) MAX_QUERY_COMPLEXITY = false ->
  decode_variables variables = Ok decoded ->
  decode_variables decoded = Ok processedVariables ->
  let req := query_request query processedVariables endpoint headers timeout in
  axios_post w req = Rejected (AxiosError message response true) ->
  handleGraphQLQuery query variables endpoint headers timeout allowMutations
    w start
  = (Returned
       {| content :=
            [{| type := lit "text";
                text :=
                  lit "Error executing GraphQL query: "
                  ++ match response with
                     | Some r =>
                         lit "Server responded with status "
                         ++ Z_to_jsstring (status r) ++ lit ": " ++ message
                     | None => lit "No response received: " ++ message
                     end |}];
          isError := Some true |},
     {| requests := [req]; clock_reads := 1 |}).
Proof.
  intros Hp Hm Hc Hd1 Hd2 req Hpost.
  rewrite <- (calculateQueryComplexity_parsed query document Hp) in Hc.
  rewrite (run_after_gates query variables endpoint headers timeout
             allowMutations w start document Hp Hm Hc).
  rewrite (after_gates_sent query variables endpoint headers timeout w start
             decoded processedVariables Hd1 Hd2).
  cbv zeta. fold req. rewrite Hpost. by destruct response.
Qed.

Lemma transport_failure_reported_witness :
  (@handleGraphQLQuery Sample.externals Sample.strict (lit "{ __typename }")
     None None None None None Sample.broken_endpoint start).1
  = Returned
      {| content :=
           [{| type := lit "text";
               text := lit "Error executing GraphQL query: Server responded with status 500: Request failed with status code 500" |}];
         isError := Some true |}.
Proof.
  rewrite (@transport_failure_reported Sample.externals Sample.strict
             (lit "{ __typename }") None None None None None
             Sample.broken_endpoint Sample.typename_query None None
             (lit "Request failed with status code 500")
             (Some {| status := 500;
                      data := {| resp_data := None; resp_errors := None |} |})).
  - reflexivity.
  - reflexivity.
  - right. intros (name & vars & dirs & sels & [Hin | []]). discriminate Hin.
  - reflexivity.
  - reflexivity.
  - reflexivity.
  - reflexivity.
Defined.

(** X9: when the request is issued and the response has no [errors],
    the handler returns a result without error flag: the status line with
    the time between the two clock readings and the endpoint, then the
    default headers if and only if some are configured, then the
    normalized query and the printed data, each in its code fence. *)
Theorem success_reported
    {ext : Externals} {cfg : ConfigModule}
    (query : jsstring) (variables : option json) (endpoint : option jsstring)
    (headers : option Headers) (timeout : option jsnum)
    (allowMutations : option bool) (w : World) (document : DocumentNode)
    (decoded processedVariables : option json) (response : AxiosResponse) :
  parse query = Ok document ->
  passes_mutation_gate allowMutations document ->
  js_gt (JInt (Z.of_nat (count_fields document))) MAX_QUERY_COMPLEXITY = false ->
  decode_variables variables = Ok decoded ->
  decode_variables decoded = Ok processedVariables ->
  let req := query_request query processedVariables endpoint headers timeout in
  axios_post w req = Resolved response ->
  resp_errors (data response) = None ->
  let line (s : jsstring) := {| type := lit "text"; text := s |} in
  handleGraphQLQuery query variables endpoint headers timeout allowMutations
    w start
  = (Returned
       {| content :=
            [line (lit "Query executed successfully in "
                   ++ Z_to_jsstring (Date_now w 1 - Date_now w 0)
                   ++ lit "ms at " ++ url req)]
            ++ (if bool_decide (DEFAULT_HEADERS = ∅) then []
                else [line (lit "Using default headers: "
                            ++ JSON_stringify_headers DEFAULT_HEADERS)])
            ++ [line ([10] ++ lit "Query:" ++ [10] ++ lit "```graphql" ++ [10]
                      ++ formatGraphQLQuery query ++ [10] ++ lit "```");
                line ([10] ++ lit "Result:" ++ [10] ++ lit "```json" ++ [10]
                      ++ match resp_data (data response) with
                         | Some v => JSON_stringify v
                         | None => lit "undefined"
                         end
                      ++ [10] ++ lit "```")];
          isError := None |},
     {| requests := [req]; clock_reads := 2 |}).
Proof.
  intros Hp Hm Hc Hd1 Hd2 req Hpost Herr line.
  rewrite <- (calculateQueryComplexity_parsed query document Hp) in Hc.
  rewrite (run_after_gates query variables endpoint headers timeout
             allowMutations w start document Hp Hm Hc).
  rewrite (after_gates_sent query variables endpoint headers timeout w start
             decoded processedVariables Hd1 Hd2).
  cbv zeta. fold req. rewrite Hpost, Herr.
  unfold success_result, text_block, LF, fence.
  cbn [requests clock_reads start app url req query_request].
  subst line. by destruct (bool_decide (DEFAULT_HEADERS = ∅)).
Qed.

Lemma success_reported_witness :
  (@handleGraphQLQuery Sample.externals Sample.with_default_headers
     (lit "{ __typename }") None None None None None
     Sample.typename_endpoint start).2
  = {| requests :=
         [@query_request Sample.externals Sample.with_default_headers
            (lit "{ __typename }") None None None None];
       clock_reads := 2 |}.
Proof.
  rewrite (@success_reported Sample.externals Sample.with_default_headers
             (lit "{ __typename }") None None None None None
             Sample.typename_endpoint Sample.typename_query None None
             {| status := 200;
                data := {| resp_data :=
                             Some (JObject [(lit "__typename",
                                             JString (lit "Query"))]);
                           resp_errors := None |} |}).
  - reflexivity.
  - reflexivity.
  - right. intros (name & vars & dirs & sels & [Hin | []]). discriminate Hin.
  - reflexivity.
  - reflexivity.
  - reflexivity.
  - reflexivity.
  - reflexivity.
Defined.

Section HandlerCases.
Context {ext : Externals} {cfg : ConfigModule}.
Variables (query : jsstring) (variables : option json)
  (endpoint : option jsstring) (headers : option Headers)
  (timeout : option jsnum) (allowMutations : option bool).

(** A call is answered by the syntax check or a gate, without any effect,
    or goes on past the gates. *)
Lemma run_cases w t :
  (exists message,
      handleGraphQLQuery query variables endpoint headers timeout
        allowMutations w t
      = (Returned (error_result message), t))
  \/ handleGraphQLQuery query variables endpoint headers timeout
       allowMutations w t
     = after_gates query variables endpoint headers timeout w t.
Proof.
  destruct (parse query) as [document|message] eqn:Hp.
  2: { left. eexists. by apply run_invalid. }
  assert (contains_mutation document /\ nullish allowMutations false = false
          \/ passes_mutation_gate allowMutations document) as [[Hm Ha]|Hm].
  { destruct allowMutations as [[|]|]; [right; by left| |];
      (destruct (isMutation query) eqn:Hi;
       [left; split; [by apply (isMutation_parsed _ _ Hp)|done]
       |right; right; intros Hcm; apply (isMutation_parsed _ _ Hp) in Hcm;
        congruence]). }
  - left. eexists. by eapply run_mutation.
  - destruct (js_gt (calculateQueryComplexity query) MAX_QUERY_COMPLEXITY)
      eqn:Hc.
    + left. eexists. by eapply run_too_complex.
    + right. by eapply run_after_gates.
Qed.

End HandlerCases.

Lemma handleGraphQLQuery_at_most_one_request_aux
    {ext : Externals} {cfg : ConfigModule}
    (query : jsstring) (variables : option json) (endpoint : option jsstring)
    (headers : option Headers) (timeout : option jsnum)
    (allowMutations : option bool) (w : World) (t : Trace) :
  let run := handleGraphQLQuery query variables endpoint headers timeout
               allowMutations w t in
  requests run.2 = requests t
  \/ exists processedVariables,
       requests run.2
       = requests t
         ++ [query_request query processedVariables endpoint headers timeout].
Proof.
  intros run. subst run.
  destruct (run_cases query variables endpoint headers timeout
              allowMutations w t) as [[message ->] | ->]; [by left|].
  apply after_gates_requests.
Qed.

(** X10: whatever the arguments and the world, a call of the query handler
    issues at most one HTTP request, and a request it issues carries the
    query text as it was given (not normalized), the merged headers, and
    the endpoint and timeout of the call or else of the configuration. *)
Theorem handleGraphQLQuery_at_most_one_request
    {ext : Externals} {cfg : ConfigModule}
    (query : jsstring) (variables : option json) (endpoint : option jsstring)
    (headers : option Headers) (timeout : option jsnum)
    (allowMutations : option bool) (w : World) (t : Trace) :
  let run := handleGraphQLQuery query variables endpoint headers timeout
               allowMutations w t in
  requests run.2 = requests t
  \/ exists processedVariables,
       requests run.2 =
       requests t
       ++ [{| url := nullish endpoint DEFAULT_GRAPHQL_ENDPOINT;
              body_query := query;
              body_variables := processedVariables;
              request_headers :=
                spread (spread protocol_headers DEFAULT_HEADERS)
                  (nullish headers ∅);
              request_timeout := nullish timeout DEFAULT_TIMEOUT |}].
Proof.
  apply handleGraphQLQuery_at_most_one_request_aux.
Qed.

(** X11: started without [--maxComplexity] and without [MAX_DEPTH], the
    handler refuses no query for its complexity: a query that parses and
    passes the mutation gate is sent to the endpoint however many fields
    it has. *)
Theorem unset_ceiling_never_refuses
    {ext : Externals} (cl : CommandLine) (env : gmap (list N) (list N))
    (query : jsstring) (variables : option json) (endpoint : option jsstring)
    (headers : option Headers) (timeout : option jsnum)
    (allowMutations : option bool) (w : World) (t : Trace)
    (document : DocumentNode) (decoded processedVariables : option json) :
  flag_maxComplexity cl = None ->
  env !! lit "MAX_DEPTH" = None ->
  parse query = Ok document ->
  passes_mutation_gate allowMutations document ->
  decode_variables variables = Ok decoded ->
  decode_variables decoded = Ok processedVariables ->
  let cfg := {| config := new_Config cl env |} in
  requests (@handleGraphQLQuery ext cfg query variables endpoint headers
              timeout allowMutations w t).2
  = requests t
    ++ [@query_request ext cfg query processedVariables endpoint headers
          timeout].
Proof.
  intros Hflag Henv Hp Hm Hd1 Hd2 cfg.
  assert (@MAX_QUERY_COMPLEXITY cfg = JNaN) as Hnan.
  { unfold MAX_QUERY_COMPLEXITY, cfg, new_Config, parseArguments.
    cbn [config maxQueryComplexity argv_maxComplexity].
    by rewrite Hflag, Henv. }
  assert (js_gt (@calculateQueryComplexity ext cfg query)
            (@MAX_QUERY_COMPLEXITY cfg) = false) as Hc.
  { rewrite Hnan. by destruct (calculateQueryComplexity query). }
  rewrite (@run_after_gates ext cfg query variables endpoint headers timeout
             allowMutations w t document Hp Hm Hc).
  rewrite (@after_gates_sent ext cfg query variables endpoint headers timeout
             w t decoded processedVariables Hd1 Hd2).
  cbv zeta. destruct (axios_post w _); done.
Qed.

Lemma unset_ceiling_never_refuses_witness :
  requests (@handleGraphQLQuery Sample.externals Sample.unconfigured
              (lit "{ x: a { b } }") None None None None None
              Sample.failing_endpoint start).2
  = [@query_request Sample.externals Sample.unconfigured
       (lit "{ x: a { b } }") None None None None].
Proof.
  apply (@unset_ceiling_never_refuses Sample.externals no_flags ∅
           (lit "{ x: a { b } }") None None None None None
           Sample.failing_endpoint start Sample.two_field_query None None).
  - reflexivity.
  - reflexivity.
  - reflexivity.
  - right. intros (name & vars & dirs & sels & [Hin | []]). discriminate Hin.
  - reflexivity.
  - reflexivity.
Defined.

(** X12: string variables are decoded twice, once by the handler and once
    more by [executeGraphQLQuery] if the first decoding gave a string: when
    that second text is not JSON the handler answers "Error executing
    GraphQL query: <message>" after one clock reading and without a
    request; when it is, the twice-decoded value is what the request
    carries. *)
Theorem string_variables_decoded_twice
    {ext : Externals} {cfg : ConfigModule}
    (query s s' : jsstring) (endpoint : option jsstring)
    (headers : option Headers) (timeout : option jsnum)
    (allowMutations : option bool) (w : World) (document : DocumentNode) :
  parse query = Ok document ->
  passes_mutation_gate allowMutations document ->
  js_gt (JInt (Z.of_nat (count_fields document))) MAX_QUERY_COMPLEXITY = false ->
  JSON_parse s = Ok (JString s') ->
  let run := handleGraphQLQuery query (Some (JString s)) endpoint headers
               timeout allowMutations w start in
  (forall message,
      JSON_parse s' = SyntaxError message ->
      run = (Returned
               {| content :=
                    [{| type := lit "text";
                        text := lit "Error executing GraphQL query: "
                                ++ message |}];
                  isError := Some true |},
             {| requests := []; clock_reads := 1 |}))
  /\ (forall v,
         JSON_parse s' = Ok v ->
         requests run.2
         = [query_request query (Some v) endpoint headers timeout]).
Proof.
  intros Hp Hm Hc Hs run. subst run.
  rewrite <- (calculateQueryComplexity_parsed query document Hp) in Hc.
  rewrite (run_after_gates query (Some (JString s)) endpoint headers timeout
             allowMutations w start document Hp Hm Hc).
  split.
  - intros message Hs'. unfold after_gates, decode_variables.
    by rewrite Hs, Hs'.
  - intros v Hs'.
    rewrite (after_gates_sent query (Some (JString s)) endpoint headers
               timeout w start (Some (JString s')) (Some v)).
    + cbv zeta. by destruct (axios_post w _).
    + unfold decode_variables. by rewrite Hs.
    + unfold decode_variables. by rewrite Hs'.
Qed.

Lemma string_variables_decoded_twice_witness :
  @handleGraphQLQuery Sample.quoting_externals Sample.strict
    (lit "{ __typename }") (Some (JString (Sample.quoted (lit "oops"))))
    None None None None Sample.failing_endpoint start
  = (Returned
       {| content :=
            [{| type := lit "text";
                text := lit "Error executing GraphQL query: Unexpected token in JSON" |}];
          isError := Some true |},
     {| requests := []; clock_reads := 1 |}).
Proof.
  assert (passes_mutation_gate None Sample.typename_query) as Hgate.
  { right.
    intros (name & vars & dirs & sels & [Hin | []]). discriminate Hin. }
  destruct (@string_variables_decoded_twice Sample.quoting_externals
              Sample.strict (lit "{ __typename }")
              (Sample.quoted (lit "oops")) (lit "oops") None None None None
              Sample.failing_endpoint Sample.typename_query
              eq_refl Hgate eq_refl eq_refl)
    as [Hfails _].
  exact (Hfails (lit "Unexpected token in JSON") eq_refl).
Defined.

(** ** The configuration resolver, further *)

Section ConfigMore.
Context {ext : Externals}.

Lemma Object_assign_lookup (target : Headers) members (k : jsstring) :
  Object_assign target (JObject members) !! k =
  if bool_decide (k = lit "__proto__") then target !! k
  else match last_member k members with
       | Some v => Some v
       | None => target !! k
       end.
Proof.
  unfold Object_assign. cbn [own_properties].
  revert target; induction members as [|[k' v] rest IH]; intros target.
  { cbn [foldl last_member]. by destruct (bool_decide (k = lit "__proto__")). }
  cbn [foldl last_member fst snd]. rewrite IH.
  destruct (bool_decide (k' = lit "__proto__")) eqn:Hk';
    destruct (bool_decide (k = lit "__proto__")) eqn:Hk; try done.
  - apply bool_decide_eq_true_1 in Hk'. apply bool_decide_eq_false_1 in Hk.
    destruct (last_member k rest); [done|].
    rewrite bool_decide_eq_false_2; [done|congruence].
  - apply bool_decide_eq_false_1 in Hk'. apply bool_decide_eq_true_1 in Hk.
    apply lookup_insert_ne. congruence.
  - destruct (last_member k rest); [done|].
    rewrite lookup_insert.
    destruct (decide (k' = k)) as [Heq|Hne].
    + by rewrite bool_decide_eq_true_2.
    + by rewrite bool_decide_eq_false_2.
Qed.

Lemma new_Config_headers_lookup cl env s members k :
  flag_headers cl = Some s ->
  s <> [] ->
  JSON_parse s = Ok (JObject members) ->
  headers (new_Config cl env) !! k =
  if bool_decide (k = lit "__proto__") then None else last_member k members.
Proof.
  intros Hflag Hs Hparse. unfold new_Config, parseArguments.
  cbn [headers argv_headers]. rewrite Hflag.
  destruct s as [|c s]; [done|]. rewrite Hparse, Object_assign_lookup.
  case_bool_decide; [apply lookup_empty|].
  destruct (last_member k members); [done|apply lookup_empty].
Qed.

End ConfigMore.

(** X13: a flag wins over the environment: when [--endpoint], [--timeout]
    and [--maxComplexity] are all given, the resolved configuration is the
    same whatever the environment holds. *)
Theorem flags_shadow_environment {ext : Externals}
    (cl : CommandLine) (env env' : gmap (list N) (list N)) :
  is_Some (flag_endpoint cl) ->
  is_Some (flag_timeout cl) ->
  is_Some (flag_maxComplexity cl) ->
  new_Config cl env = new_Config cl env'.
Proof.
  intros [e He] [n Hn] [m Hm]. unfold new_Config, parseArguments.
  cbn [argv_endpoint argv_headers argv_timeout argv_maxComplexity].
  by rewrite He, Hn, Hm.
Qed.

Lemma flags_shadow_environment_witness :
  @new_Config Sample.quoting_externals
    {| flag_endpoint := Some (lit "https://api.example/graphql");
       flag_headers := None;
       flag_timeout := Some (JInt 5000);
       flag_maxComplexity := Some (JInt 10) |}
    {[ lit "TIMEOUT" := lit "250" ]}
  = @new_Config Sample.quoting_externals
      {| flag_endpoint := Some (lit "https://api.example/graphql");
         flag_headers := None;
         flag_timeout := Some (JInt 5000);
         flag_maxComplexity := Some (JInt 10) |}
      ∅.
Proof.
  apply (@flags_shadow_environment Sample.quoting_externals);
    cbn; eexists; reflexivity.
Defined.

(** X14: when the header flag parses to a JSON object, the configured
    default headers are its members, but for the name [__proto__], which
    never becomes a header: any other name is bound to the value of the
    last member of that name, and to nothing if there is none. *)
Theorem Config_headers_from_flag {ext : Externals}
    (cl : CommandLine) (env : gmap (list N) (list N))
    (s : jsstring) (members : list (jsstring * json)) (k : jsstring) :
  flag_headers cl = Some s ->
  s <> [] ->
  JSON_parse s = Ok (JObject members) ->
  headers (new_Config cl env) !! lit "__proto__" = None
  /\ (k <> lit "__proto__" ->
      headers (new_Config cl env) !! k = last_member k members).
Proof.
  intros Hflag Hs Hparse.
  rewrite !(new_Config_headers_lookup cl env s members _ Hflag Hs Hparse).
  split; [done|]. intros Hk. by rewrite bool_decide_eq_false_2.
Qed.

Lemma Config_headers_from_flag_witness :
  let c := @new_Config Sample.quoting_externals
             {| flag_endpoint := None;
                flag_headers := Some Sample.authorization_json;
                flag_timeout := None; flag_maxComplexity := None |} ∅ in
  headers c !! lit "__proto__" = None
  /\ headers c !! lit "Authorization" = Some (JString (lit "Bearer flag")).
Proof.
  destruct (@Config_headers_from_flag Sample.quoting_externals
              {| flag_endpoint := None;
                 flag_headers := Some Sample.authorization_json;
                 flag_timeout := None; flag_maxComplexity := None |} ∅
              Sample.authorization_json
              [(lit "Authorization", JString (lit "Bearer flag"))]
              (lit "Authorization") eq_refl)
    as [Hproto Hmember]; [discriminate|reflexivity|].
  split; [exact Hproto|]. rewrite Hmember; [reflexivity|discriminate].
Defined.

(** X15: a header flag that [JSON.parse] rejects, or that parses to
    [null], a boolean or a number, does not stop the start: the default
    headers are empty and the rest of the configuration is what it is
    without the flag. *)
Theorem Config_unusable_headers_flag {ext : Externals}
    (cl : CommandLine) (env : gmap (list N) (list N)) (s : jsstring) :
  flag_headers cl = Some s ->
  (exists message, JSON_parse s = SyntaxError message)
  \/ JSON_parse s = Ok JNull
  \/ (exists b, JSON_parse s = Ok (JBool b))
  \/ (exists n, JSON_parse s = Ok (JNumber n)) ->
  new_Config cl env
  = new_Config {| flag_endpoint := flag_endpoint cl;
                  flag_headers := None;
                  flag_timeout := flag_timeout cl;
                  flag_maxComplexity := flag_maxComplexity cl |} env
  /\ headers (new_Config cl env) = ∅.
Proof.
  intros Hflag Hparse.
  assert (headers (new_Config cl env) = ∅) as Hempty.
  { unfold new_Config, parseArguments. cbn [headers argv_headers].
    rewrite Hflag. destruct s as [|c s]; [done|].
    by destruct Hparse as [[m ->] | [-> | [[b ->] | [n ->]]]]. }
  split; [|exact Hempty].
  unfold new_Config, parseArguments in *. cbn [headers argv_headers] in Hempty.
  cbn [argv_endpoint argv_headers argv_timeout argv_maxComplexity
       flag_endpoint flag_headers flag_timeout flag_maxComplexity].
  by rewrite Hempty.
Qed.

Lemma Config_unusable_headers_flag_witness :
  headers (@new_Config Sample.quoting_externals
             {| flag_endpoint := None;
                flag_headers := Some (lit "Authorization: Bearer flag");
                flag_timeout := None; flag_maxComplexity := None |} ∅)
  = ∅.
Proof.
  apply (@Config_unusable_headers_flag Sample.quoting_externals _ ∅
           (lit "Authorization: Bearer flag")).
  - reflexivity.
  - left. exists (lit "Unexpected token in JSON"). reflexivity.
Defined.

(** X16: a default header given on the command line reaches the wire: a
    member of the parsed header flag, of a name other than [__proto__], is
    sent with every request of [executeGraphQLQuery] whose own headers do
    not name it. *)
Theorem flag_header_is_sent {ext : Externals}
    (cl : CommandLine) (env : gmap (list N) (list N))
    (s : jsstring) (members : list (jsstring * json))
    (k : jsstring) (v : json)
    (a : ExecuteArgs) (w : World) (processedVariables : option json) :
  flag_headers cl = Some s ->
  s <> [] ->
  JSON_parse s = Ok (JObject members) ->
  k <> lit "__proto__" ->
  last_member k members = Some v ->
  nullish (exec_headers a) ∅ !! k = None ->
  decode_variables (exec_variables a) = Ok processedVariables ->
  exists req,
    requests (@executeGraphQLQuery ext {| config := new_Config cl env |}
                a w start).2 = [req]
    /\ request_headers req !! k = Some v.
Proof.
  intros Hflag Hs Hparse Hk Hlast Hown Hd.
  rewrite (@executeGraphQLQuery_decoded ext {| config := new_Config cl env |}
             a w start _ Hd).
  eexists; split; [reflexivity|]. cbn [request_headers].
  rewrite request_headers_of_lookup, Hown.
  unfold DEFAULT_HEADERS. cbn [config].
  rewrite (new_Config_headers_lookup cl env s members k Hflag Hs Hparse).
  by rewrite bool_decide_eq_false_2, Hlast.
Qed.

Lemma flag_header_is_sent_witness :
  exists req,
    requests
      (@executeGraphQLQuery Sample.quoting_externals
         {| config :=
              @new_Config Sample.quoting_externals
                {| flag_endpoint := None;
                   flag_headers := Some Sample.authorization_json;
                   flag_timeout := None; flag_maxComplexity := None |} ∅ |}
         (Sample.bare_query None) Sample.failing_endpoint start).2 = [req]
    /\ request_headers req !! lit "Authorization"
       = Some (JString (lit "Bearer flag")).
Proof.
  apply (@flag_header_is_sent Sample.quoting_externals _ ∅
           Sample.authorization_json
           [(lit "Authorization", JString (lit "Bearer flag"))]
           (lit "Authorization") (JString (lit "Bearer flag"))
           (Sample.bare_query None) Sample.failing_endpoint None).
  - reflexivity.
  - discriminate.
  - reflexivity.
  - discriminate.
  - reflexivity.
  - reflexivity.
  - reflexivity.
Defined.

(** ** The legacy entry point *)

(** X17: the legacy entry point resolves its complexity ceiling with [||]:
    whatever the environment, the ceiling is a number other than zero,
    and it is 100 when [MAX_DEPTH] is not set. *)
Theorem Legacy_ceiling_is_a_number {ext : Externals}
    (env : gmap (list N) (list N)) :
  (exists z, Legacy.MAX_QUERY_COMPLEXITY env = JInt z /\ z <> 0%Z)
  /\ (env !! lit "MAX_DEPTH" = None ->
      Legacy.MAX_QUERY_COMPLEXITY env = JInt 100).
Proof.
  unfold Legacy.MAX_QUERY_COMPLEXITY, Legacy.js_or. split.
  - destruct (Number_of_env (env !! lit "MAX_DEPTH")) as [|z]; [by exists 100%Z|].
    destruct (z =? 0)%Z eqn:Hz; [by exists 100%Z|].
    exists z. split; [done|]. by apply Z.eqb_neq.
  - by intros ->.
Qed.

Lemma Legacy_ceiling_is_a_number_witness :
  @Legacy.MAX_QUERY_COMPLEXITY Sample.externals ∅ = JInt 100.
Proof.
  apply (proj2 (@Legacy_ceiling_is_a_number Sample.externals ∅)).
  reflexivity.
Defined.

(** ** Schema introspection *)

Section IntrospectionFacts.
Context {ext : Externals} {sch : SchemaExternals} {cfg : ConfigModule}.

Lemma fetchGraphQLSchema_run a w t :
  let req := introspection_request (fetch_endpoint a) (fetch_headers a)
               (fetch_includeDeprecated a) (fetch_timeout a) in
  fetchGraphQLSchema a w t =
  (match axios_post w req with
   | Rejected error => Threw (VError error)
   | Resolved response =>
       match resp_errors (data response) with
       | Some errors =>
           Threw (VError (OtherError (lit "Error")
                            (lit "GraphQL server returned errors: "
                             ++ JSON_stringify_errors errors)))
       | None =>
           match buildClientSchema (resp_data (data response)) with
           | Ok schema => Returned (schema, resp_data (data response))
           | SyntaxError message =>
               Threw (VError (OtherError (lit "Error") message))
           end
       end
   end,
   {| requests := requests t ++ [req]; clock_reads := clock_reads t |}).
Proof.
  intros req. unfold fetchGraphQLSchema, bind, post.
  fold (introspection_request (fetch_endpoint a) (fetch_headers a)
          (fetch_includeDeprecated a) (fetch_timeout a)). fold req.
  destruct (axios_post w req) as [response|error]; [|done].
  destruct (resp_errors (data response)); [done|].
  unfold lift, throwing, ret.
  by destruct (buildClientSchema (resp_data (data response))).
Qed.

Lemma handleGraphQLIntrospect_run endpoint headers includeDeprecated w t :
  let req := introspection_request endpoint headers includeDeprecated None in
  let failure (message : jsstring) :=
    error_result (lit "Error introspecting GraphQL schema: " ++ message) in
  handleGraphQLIntrospect endpoint headers includeDeprecated w t =
  (match axios_post w req with
   | Rejected error =>
       match sanitizeErrorMessage (VError error) with
       | Returned errorMessage => Returned (failure errorMessage)
       | Threw e => Threw e
       end
   | Resolved response =>
       match resp_errors (data response) with
       | Some errors =>
           Returned (failure (lit "GraphQL server returned errors: "
                              ++ JSON_stringify_errors errors))
       | None =>
           match buildClientSchema (resp_data (data response)) with
           | Ok schema =>
               Returned (introspection_success
                           (nullish endpoint DEFAULT_GRAPHQL_ENDPOINT)
                           (printSchema schema))
           | SyntaxError message => Returned (failure message)
           end
       end
   end,
   {| requests := requests t ++ [req]; clock_reads := clock_reads t |}).
Proof.
  intros req failure. unfold handleGraphQLIntrospect, try_catch.
  unfold bind at 1. rewrite fetchGraphQLSchema_run.
  cbn [fetch_endpoint fetch_headers fetch_includeDeprecated fetch_timeout].
  change (introspection_request
            (Some (nullish endpoint DEFAULT_GRAPHQL_ENDPOINT))
            (Some (nullish headers ∅))
            (Some (nullish includeDeprecated true)) None) with req.
  destruct (axios_post w req) as [response|error].
  - destruct (resp_errors (data response)); [done|].
    by destruct (buildClientSchema (resp_data (data response))).
  - unfold bind, lift, ret. by destruct (sanitizeErrorMessage (VError error)).
Qed.

Lemma handleGraphQLIntrospect_returns endpoint headers includeDeprecated w t :
  exists result,
    handleGraphQLIntrospect endpoint headers includeDeprecated w t
    = (Returned result,
       {| requests :=
            requests t
            ++ [introspection_request endpoint headers includeDeprecated None];
          clock_reads := clock_reads t |}).
Proof.
  rewrite handleGraphQLIntrospect_run. cbv zeta.
  destruct (axios_post w _) as [response|error].
  - destruct (resp_errors (data response)); [eauto|].
    destruct (buildClientSchema (resp_data (data response))); eauto.
  - destruct (sanitizeErrorMessage_error error) as [s ->]. eauto.
Qed.

End IntrospectionFacts.

(** X18: [fetchGraphQLSchema] issues exactly one request, the introspection
    query with descriptions and with deprecated input values as asked
    (by default included), under the merged headers and the given or
    configured endpoint and timeout; it throws what [axios.post] rejected
    with, throws on an [errors] array even if the HTTP call succeeded,
    throws what [buildClientSchema] throws, and otherwise returns the
    schema together with the raw introspection result. *)
Theorem fetchGraphQLSchema_outcomes
    {ext : Externals} {sch : SchemaExternals} {cfg : ConfigModule}
    (a : FetchArgs) (w : World) (t : Trace) :
  let req :=
    {| url := nullish (fetch_endpoint a) DEFAULT_GRAPHQL_ENDPOINT;
       body_query :=
         getIntrospectionQuery true (nullish (fetch_includeDeprecated a) true);
       body_variables := None;
       request_headers :=
         spread (spread protocol_headers DEFAULT_HEADERS)
           (nullish (fetch_headers a) ∅);
       request_timeout := nullish (fetch_timeout a) DEFAULT_TIMEOUT |} in
  let run := fetchGraphQLSchema a w t in
  requests run.2 = requests t ++ [req]
  /\ (forall error,
        axios_post w req = Rejected error -> run.1 = Threw (VError error))
  /\ (forall response errors,
        axios_post w req = Resolved response ->
        resp_errors (data response) = Some errors ->
        run.1 = Threw (VError (OtherError (lit "Error")
                                 (lit "GraphQL server returned errors: "
                                  ++ JSON_stringify_errors errors))))
  /\ (forall response message,
        axios_post w req = Resolved response ->
        resp_errors (data response) = None ->
        buildClientSchema (resp_data (data response)) = SyntaxError message ->
        run.1 = Threw (VError (OtherError (lit "Error") message)))
  /\ (forall response schema,
        axios_post w req = Resolved response ->
        resp_errors (data response) = None ->
        buildClientSchema (resp_data (data response)) = Ok schema ->
        run.1 = Returned (schema, resp_data (data response))).
Proof.
  intros req run. subst run. rewrite fetchGraphQLSchema_run.
  change (introspection_request (fetch_endpoint a) (fetch_headers a)
            (fetch_includeDeprecated a) (fetch_timeout a)) with req.
  cbv zeta. cbn [fst snd requests]. repeat split.
  - by intros error ->.
  - by intros response errors -> ->.
  - by intros response message -> -> ->.
  - by intros response schema -> -> ->.
Qed.

Lemma fetchGraphQLSchema_outcomes_witness :
  (@fetchGraphQLSchema Sample.schema_externals Sample.strict
     {| fetch_endpoint := None; fetch_headers := None;
        fetch_includeDeprecated := None; fetch_timeout := None |}
     Sample.failing_endpoint start).1
  = Threw (VError (OtherError (lit "Error")
                     (lit "GraphQL server returned errors: [...]"))).
Proof.
  destruct (@fetchGraphQLSchema_outcomes Sample.externals
              Sample.schema_externals Sample.strict
              {| fetch_endpoint := None; fetch_headers := None;
                 fetch_includeDeprecated := None; fetch_timeout := None |}
              Sample.failing_endpoint start)
    as (_ & _ & Herrors & _).
  exact (Herrors Sample.field_X_response
           [{| entry_message := lit "field X not found" |}]
           eq_refl eq_refl).
Defined.

(** X19: the introspection handler has no gate and never fails: whatever
    its arguments and the world, it returns a result after issuing exactly
    one request, whose timeout is the configured one (a call cannot
    override it) and whose deprecation switch is on unless the call says
    otherwise; the clock is not read. *)
Theorem handleGraphQLIntrospect_one_request
    {ext : Externals} {sch : SchemaExternals} {cfg : ConfigModule}
    (endpoint : option jsstring) (headers : option Headers)
    (includeDeprecated : option bool) (w : World) (t : Trace) :
  exists result,
    handleGraphQLIntrospect endpoint headers includeDeprecated w t
    = (Returned result,
       {| requests :=
            requests t
            ++ [{| url := nullish endpoint DEFAULT_GRAPHQL_ENDPOINT;
                   body_query :=
                     getIntrospectionQuery true
                       (match includeDeprecated with
                        | Some false => false
                        | _ => true
                        end);
                   body_variables := None;
                   request_headers :=
                     spread (spread protocol_headers DEFAULT_HEADERS)
                       (nullish headers ∅);
                   request_timeout := DEFAULT_TIMEOUT |}];
          clock_reads := clock_reads t |}).
Proof.
  destruct (handleGraphQLIntrospect_returns endpoint headers includeDeprecated
              w t) as [result Hrun].
  exists result. rewrite Hrun. by destruct includeDeprecated as [[|]|].
Qed.

(** X20: when the endpoint answers an introspection with an [errors]
    array, although the HTTP call succeeded, the handler answers
    [isError = true] with
    "Error introspecting GraphQL schema: GraphQL server returned errors: "
    followed by the array as JSON text (not by the joined messages, as the
    query handler does). *)
Theorem introspection_errors_reported
    {ext : Externals} {sch : SchemaExternals} {cfg : ConfigModule}
    (endpoint : option jsstring) (headers : option Headers)
    (includeDeprecated : option bool) (w : World) (t : Trace)
    (response : AxiosResponse) (errors : list GraphQLErrorEntry) :
  axios_post w (introspection_request endpoint headers includeDeprecated None)
  = Resolved response ->
  resp_errors (data response) = Some errors ->
  (handleGraphQLIntrospect endpoint headers includeDeprecated w t).1
  = Returned
      {| content :=
           [{| type := lit "text";
               text := lit "Error introspecting GraphQL schema: GraphQL server returned errors: "
                       ++ JSON_stringify_errors errors |}];
         isError := Some true |}.
Proof.
  intros Hpost Herr. rewrite handleGraphQLIntrospect_run. cbv zeta.
  by rewrite Hpost, Herr.
Qed.

Lemma introspection_errors_reported_witness :
  (@handleGraphQLIntrospect Sample.externals Sample.schema_externals
     Sample.strict None None None Sample.failing_endpoint start).1
  = Returned
      {| content :=
           [{| type := lit "text";
               text := lit "Error introspecting GraphQL schema: GraphQL server returned errors: [...]" |}];
         isError := Some true |}.
Proof.
  exact (@introspection_errors_reported Sample.externals
           Sample.schema_externals Sample.strict None None None
           Sample.failing_endpoint start Sample.field_X_response
           [{| entry_message := lit "field X not found" |}]
           eq_refl eq_refl).
Defined.

(** X21: when the endpoint answers an introspection result from which a
    schema can be built, the handler returns, without error flag, the line
    "Schema introspection from <endpoint> completed successfully", then
    the default headers if and only if some are configured, then the
    printed schema in a graphql code fence. *)
Theorem introspection_success_reported
    {ext : Externals} {sch : SchemaExternals} {cfg : ConfigModule}
    (endpoint : option jsstring) (headers : option Headers)
    (includeDeprecated : option bool) (w : World) (t : Trace)
    (response : AxiosResponse) (schema : Schema) :
  axios_post w (introspection_request endpoint headers includeDeprecated None)
  = Resolved response ->
  resp_errors (data response) = None ->
  buildClientSchema (resp_data (data response)) = Ok schema ->
  let line (s : jsstring) := {| type := lit "text"; text := s |} in
  (handleGraphQLIntrospect endpoint headers includeDeprecated w t).1
  = Returned
      {| content :=
           [line (lit "Schema introspection from "
                  ++ nullish endpoint DEFAULT_GRAPHQL_ENDPOINT
                  ++ lit " completed successfully")]
           ++ (if bool_decide (DEFAULT_HEADERS = ∅) then []
               else [line (lit "Using default headers: "
                           ++ JSON_stringify_headers DEFAULT_HEADERS)])
           ++ [line ([10] ++ lit "GraphQL Schema:" ++ [10] ++ lit "```graphql"
                     ++ [10] ++ printSchema schema ++ [10] ++ lit "```")];
         isError := None |}.
Proof.
  intros Hpost Herr Hbuild line. rewrite handleGraphQLIntrospect_run. cbv zeta.
  rewrite Hpost, Herr, Hbuild. cbn [fst].
  unfold introspection_success, text_block, LF, fence. subst line.
  by destruct (bool_decide (DEFAULT_HEADERS = ∅)).
Qed.

Lemma introspection_success_reported_witness :
  (@handleGraphQLIntrospect Sample.externals Sample.schema_externals
     Sample.strict None None None Sample.schema_endpoint start).1
  = Returned
      {| content :=
           [{| type := lit "text";
               text := lit "Schema introspection from http://localhost:4000/graphql completed successfully" |};
            {| type := lit "text";
               text := [10] ++ lit "GraphQL Schema:" ++ [10]
                       ++ lit "```graphql" ++ [10] ++ lit "type Query"
                       ++ [10] ++ lit "```" |}];
         isError := None |}.
Proof.
  exact (@introspection_success_reported Sample.externals
           Sample.schema_externals Sample.strict None None None
           Sample.schema_endpoint start
           {| status := 200;
              data := {| resp_data := Some (JString (lit "type Query"));
                         resp_errors := None |} |}
           (lit "type Query") eq_refl eq_refl eq_refl).
Defined.

(** X22: a failed introspection is reported, not thrown: an HTTP-client
    error gives "Error introspecting GraphQL schema: " followed by its
    status line or its no-response line, and a result from which no schema
    can be built gives the same prefix followed by the message of
    [buildClientSchema]. *)
Theorem introspection_failure_reported
    {ext : Externals} {sch : SchemaExternals} {cfg : ConfigModule}
    (endpoint : option jsstring) (headers : option Headers)
    (includeDeprecated : option bool) (w : World) (t : Trace) :
  let req := introspection_request endpoint headers includeDeprecated None in
  let failure (message : jsstring) :=
    Returned
      {| content :=
           [{| type := lit "text";
               text := lit "Error introspecting GraphQL schema: " ++ message |}];
         isError := Some true |} in
  let run := handleGraphQLIntrospect endpoint headers includeDeprecated w t in
  (forall message response,
      axios_post w req = Rejected (AxiosError message (Some response) true) ->
      run.1 = failure (lit "Server responded with status "
                       ++ Z_to_jsstring (status response) ++ lit ": "
                       ++ message))
  /\ (forall message,
        axios_post w req = Rejected (AxiosError message None true) ->
        run.1 = failure (lit "No response received: " ++ message))
  /\ (forall response message,
        axios_post w req = Resolved response ->
        resp_errors (data response) = None ->
        buildClientSchema (resp_data (data response)) = SyntaxError message ->
        run.1 = failure message).
Proof.
  intros req failure run. subst run. rewrite handleGraphQLIntrospect_run.
  cbv zeta. fold req. repeat split.
  - by intros message response ->.
  - by intros message ->.
  - by intros response message -> -> ->.
Qed.

Lemma introspection_failure_reported_witness :
  (@handleGraphQLIntrospect Sample.externals Sample.schema_externals
     Sample.strict None None None Sample.broken_endpoint start).1
  = Returned
      {| content :=
           [{| type := lit "text";
               text := lit "Error introspecting GraphQL schema: Server responded with status 500: Request failed with status code 500" |}];
         isError := Some true |}.
Proof.
  destruct (@introspection_failure_reported Sample.externals
              Sample.schema_externals Sample.strict None None None
              Sample.broken_endpoint start) as [Hstatus _].
  exact (Hstatus (lit "Request failed with status code 500")
           {| status := 500;
              data := {| resp_data := None; resp_errors := None |} |}
           eq_refl).
Defined.

(** ** The dispatch of tool calls *)

Section Dispatch.
Context {ext : Externals} {sch : SchemaExternals} {cfg : ConfigModule}.

Lemma callTool_query a w t :
  callTool {| params_name := lit "graphql_query";
              params_arguments := Some a |} w t
  = handleGraphQLQuery (args_query a) (args_variables a) (args_endpoint a)
      (args_headers a) (args_timeout a) (args_allowMutations a) w t.
Proof.
  destruct (run_returns (args_query a) (args_variables a) (args_endpoint a)
              (args_headers a) (args_timeout a) (args_allowMutations a) w t)
    as (result & t' & Hrun).
  unfold callTool, try_catch, destructure, bind, ret.
  cbn [params_name params_arguments].
  rewrite bool_decide_eq_true_2 by done. by rewrite Hrun.
Qed.

Lemma callTool_introspect a w t :
  callTool {| params_name := lit "graphql_introspect";
              params_arguments := Some a |} w t
  = handleGraphQLIntrospect (args_endpoint a) (args_headers a)
      (args_includeDeprecated a) w t.
Proof.
  destruct (handleGraphQLIntrospect_returns (args_endpoint a) (args_headers a)
              (args_includeDeprecated a) w t) as [result Hrun].
  unfold callTool, try_catch, destructure, bind, ret.
  cbn [params_name params_arguments].
  rewrite bool_decide_eq_false_2 by discriminate.
  rewrite bool_decide_eq_true_2 by done. by rewrite Hrun.
Qed.

Lemma callTool_unknown request w t :
  params_name request <> lit "graphql_query" ->
  params_name request <> lit "graphql_introspect" ->
  callTool request w t
  = (Returned (error_result (lit "Unknown tool: " ++ params_name request)), t).
Proof.
  intros Hq Hi. unfold callTool, try_catch, ret.
  by rewrite !bool_decide_eq_false_2.
Qed.

Lemma callTool_no_arguments name w t :
  name = lit "graphql_query" \/ name = lit "graphql_introspect" ->
  callTool {| params_name := name; params_arguments := None |} w t
  = (Returned
       (error_result
          (lit "Error: "
           ++ cannot_destructure
                (if bool_decide (name = lit "graphql_query")
                 then lit "query" else lit "endpoint"))), t).
Proof.
  intros [-> | ->]; unfold callTool, try_catch, destructure, bind, throw,
    lift, ret; cbn [params_name params_arguments].
  - by rewrite bool_decide_eq_true_2.
  - rewrite bool_decide_eq_false_2 by discriminate.
    by rewrite bool_decide_eq_true_2.
Qed.

End Dispatch.

(** X23: a call of a tool other than [graphql_query] and
    [graphql_introspect] is answered "Unknown tool: <name>" with
    [isError = true], whatever its arguments; nothing is sent and the
    clock is not read. *)
Theorem unknown_tool_reported
    {ext : Externals} {sch : SchemaExternals} {cfg : ConfigModule}
    (request : CallToolRequest) (w : World) (t : Trace) :
  params_name request <> lit "graphql_query" ->
  params_name request <> lit "graphql_introspect" ->
  callTool request w t
  = (Returned
       {| content :=
            [{| type := lit "text";
                text := lit "Unknown tool: " ++ params_name request |}];
          isError := Some true |}, t).
Proof. apply callTool_unknown. Qed.

Lemma unknown_tool_reported_witness :
  @callTool Sample.externals Sample.schema_externals Sample.strict
    {| params_name := lit "graphql_mutate"; params_arguments := None |}
    Sample.failing_endpoint start
  = (Returned
       {| content :=
            [{| type := lit "text";
                text := lit "Unknown tool: graphql_mutate" |}];
          isError := Some true |}, start).
Proof.
  apply (@unknown_tool_reported Sample.externals Sample.schema_externals
           Sample.strict); discriminate.
Defined.

(** X24: a call of one of the two tools that comes without arguments is
    answered "Error: " followed by the engine's message for destructuring
    [undefined], with [isError = true]; the handler is not entered and
    nothing is sent.  This holds for [graphql_introspect] too, although
    none of its arguments is required. *)
Theorem missing_arguments_reported
    {ext : Externals} {sch : SchemaExternals} {cfg : ConfigModule}
    (w : World) (t : Trace) :
  callTool {| params_name := lit "graphql_query"; params_arguments := None |}
    w t
  = (Returned
       {| content :=
            [{| type := lit "text";
                text := lit "Error: " ++ cannot_destructure (lit "query") |}];
          isError := Some true |}, t)
  /\ callTool {| params_name := lit "graphql_introspect";
                 params_arguments := None |} w t
     = (Returned
          {| content :=
               [{| type := lit "text";
                   text := lit "Error: "
                           ++ cannot_destructure (lit "endpoint") |}];
             isError := Some true |}, t).
Proof.
  split.
  - by rewrite (callTool_no_arguments (lit "graphql_query") w t (or_introl eq_refl)).
  - by rewrite (callTool_no_arguments (lit "graphql_introspect") w t
                  (or_intror eq_refl)).
Qed.

(** X25: the dispatcher adds nothing to a handler: for a call with
    arguments, result and effects are exactly those of the handler of that
    name, so the "Error: " answer of the dispatcher's own [catch] is never
    given for a failure inside a handler. *)
Theorem callTool_is_the_handler
    {ext : Externals} {sch : SchemaExternals} {cfg : ConfigModule}
    (a : CallToolArguments) (w : World) (t : Trace) :
  callTool {| params_name := lit "graphql_query";
              params_arguments := Some a |} w t
  = handleGraphQLQuery (args_query a) (args_variables a) (args_endpoint a)
      (args_headers a) (args_timeout a) (args_allowMutations a) w t
  /\ callTool {| params_name := lit "graphql_introspect";
                 params_arguments := Some a |} w t
     = handleGraphQLIntrospect (args_endpoint a) (args_headers a)
         (args_includeDeprecated a) w t.
Proof. split; [apply callTool_query|apply callTool_introspect]. Qed.

(** X26: whatever the tool name, the arguments and the world, a tool call
    returns a result (nothing is thrown to the transport) and issues at
    most one HTTP request. *)
Theorem callTool_returns
    {ext : Externals} {sch : SchemaExternals} {cfg : ConfigModule}
    (request : CallToolRequest) (w : World) (t : Trace) :
  exists result t',
    callTool request w t = (Returned result, t')
    /\ (requests t' = requests t
        \/ exists req, requests t' = requests t ++ [req]).
Proof.
  destruct request as [name [a|]].
  - destruct (decide (name = lit "graphql_query")) as [-> | Hq].
    { rewrite callTool_query.
      destruct (run_returns (args_query a) (args_variables a)
                  (args_endpoint a) (args_headers a) (args_timeout a)
                  (args_allowMutations a) w t) as (result & t' & Hrun).
      pose proof (handleGraphQLQuery_at_most_one_request_aux
                    (args_query a) (args_variables a) (args_endpoint a)
                    (args_headers a) (args_timeout a)
                    (args_allowMutations a) w t) as Hreq.
      rewrite Hrun in Hreq |- *. exists result, t'. split; [done|].
      destruct Hreq as [Hreq | [pv Hreq]]; eauto. }
    destruct (decide (name = lit "graphql_introspect")) as [-> | Hi].
    { rewrite callTool_introspect.
      destruct (handleGraphQLIntrospect_returns (args_endpoint a)
                  (args_headers a) (args_includeDeprecated a) w t)
        as [result ->].
      eexists _, _. split; [done|]. right. by eexists. }
    rewrite (callTool_unknown
               {| params_name := name; params_arguments := Some a |}
               w t Hq Hi).
    eexists _, _. split; [done|by left].
  - destruct (decide (name = lit "graphql_query")) as [-> | Hq].
    { rewrite (callTool_no_arguments _ w t (or_introl eq_refl)).
      eexists _, _. split; [done|by left]. }
    destruct (decide (name = lit "graphql_introspect")) as [-> | Hi].
    { rewrite (callTool_no_arguments _ w t (or_intror eq_refl)).
      eexists _, _. split; [done|by left]. }
    rewrite (callTool_unknown
               {| params_name := name; params_arguments := None |}
               w t Hq Hi).
    eexists _, _. split; [done|by left].
Qed.
